(** * Bear API (br.h): a shallow embedding of the software rasterizer

    The development follows [src/br.h].  C integers are modelled as [Z] with
    the wrap-around of their width written out, C [float] as IEEE-754
    binary32 ([spec_float] at precision 24, infinities at exponent 128,
    round to nearest even), pointers as optional block names ([None] is
    [NULL]) and the memory the library does not own as a finite map from
    block names to arrays of cells.  Operations whose C behaviour is
    undefined (a null dereference, an out-of-bounds access, a float that
    does not fit the integer it is converted to) return [None]. *)

From Stdlib Require Import ZArith Bool Lia.
From Stdlib Require Import Floats.SpecFloat.
From stdpp Require Import base option list gmap.

Local Open Scope Z_scope.

(** ** Machine integers *)

Module CInt.

Definition u8 (v : Z) : Z := v mod 2 ^ 8.
Definition u16 (v : Z) : Z := v mod 2 ^ 16.
Definition u32 (v : Z) : Z := v mod 2 ^ 32.
Definition u64 (v : Z) : Z := v mod 2 ^ 64.

(** Two's complement reading of the low 32 (64) bits: the conversion of an
    unsigned value to [int] ([int64_t]) and the wrap-around of [int]
    arithmetic. *)
Definition s32 (v : Z) : Z := (v + 2 ^ 31) mod 2 ^ 32 - 2 ^ 31.
Definition s64 (v : Z) : Z := (v + 2 ^ 63) mod 2 ^ 64 - 2 ^ 63.

Definition in_s32 (v : Z) : bool := (- 2 ^ 31 <=? v) && (v <? 2 ^ 31).
Definition in_s64 (v : Z) : bool := (- 2 ^ 63 <=? v) && (v <? 2 ^ 63).
Definition in_u32 (v : Z) : bool := (0 <=? v) && (v <? 2 ^ 32).
Definition in_u8 (v : Z) : bool := (0 <=? v) && (v <? 2 ^ 8).

(** C division truncates toward zero. *)
Definition cdiv (a b : Z) : Z := Z.quot a b.

End CInt.

Import CInt.

(** ** IEEE-754 binary32 *)

Module F32.

Definition prec : Z := 24.
Definition emax : Z := 128.

Definition f32 : Type := spec_float.

Definition add : f32 -> f32 -> f32 := SFadd prec emax.
Definition sub : f32 -> f32 -> f32 := SFsub prec emax.
Definition mul : f32 -> f32 -> f32 := SFmul prec emax.
Definition div : f32 -> f32 -> f32 := SFdiv prec emax.
Definition sqrt : f32 -> f32 := SFsqrt prec emax.
Definition opp : f32 -> f32 := SFopp.
Definition abs : f32 -> f32 := SFabs.

(** The C comparison operators; every ordered comparison with a NaN is
    false and [!=] with a NaN is true. *)
Definition eqb : f32 -> f32 -> bool := SFeqb.
Definition neqb (a b : f32) : bool := negb (SFeqb a b).
Definition ltb : f32 -> f32 -> bool := SFltb.
Definition leb : f32 -> f32 -> bool := SFleb.
Definition gtb (a b : f32) : bool := SFltb b a.
Definition geb (a b : f32) : bool := SFleb b a.

(** Integer to float conversion (round to nearest even). *)
Definition of_Z (v : Z) : f32 := binary_normalize prec emax v 0 false.

(** The float nearest to the rational [n / d]; used for decimal
    literals such as [.00392156862f]. *)
Definition of_ratio (n d : positive) : f32 :=
  let '(q, e, l) := SFdiv_core_binary prec emax (Zpos n) 0 (Zpos d) 0 in
  binary_round_aux prec emax false q e l.

(** [m * 2 ^ e]. *)
Definition of_pow2 (m e : Z) : f32 := binary_normalize prec emax m e false.

Definition zero : f32 := S754_zero false.
Definition one : f32 := of_Z 1.
Definition half : f32 := of_pow2 1 (-1).
Definition nan : f32 := S754_nan.
Definition pinf : f32 := S754_infinity false.

Definition is_nan (a : f32) : bool :=
  match a with S754_nan => true | _ => false end.

(** Float to integer conversion discards the fractional part; NaN and
    the infinities have no integral part. *)
Definition trunc (a : f32) : option Z :=
  match a with
  | S754_zero _ => Some 0
  | S754_finite s m e =>
      Some (cond_Zopp s
              (match e with
               | Zneg p => Z.shiftr (Zpos m) (Zpos p)
               | _ => Z.shiftl (Zpos m) e
               end))
  | _ => None
  end.

(** The conversion is undefined when the integral part is not a value of
    the target type. *)
Definition to_range (inb : Z -> bool) (a : f32) : option Z :=
  match trunc a with
  | Some v => if inb v then Some v else None
  | None => None
  end.

Definition to_s32 : f32 -> option Z := to_range in_s32.
Definition to_s64 : f32 -> option Z := to_range in_s64.
Definition to_u32 : f32 -> option Z := to_range in_u32.
Definition to_u8 : f32 -> option Z := to_range in_u8.

End F32.

Abbreviation f32 := F32.f32.

Declare Scope f32_scope.
Delimit Scope f32_scope with f32.
Infix "+" := F32.add : f32_scope.
Infix "-" := F32.sub : f32_scope.
Infix "*" := F32.mul : f32_scope.
Infix "/" := F32.div : f32_scope.
Notation "- a" := (F32.opp a) : f32_scope.
Infix "<?" := F32.ltb : f32_scope.
Infix "<=?" := F32.leb : f32_scope.
Infix ">?" := F32.gtb : f32_scope.
Infix ">=?" := F32.geb : f32_scope.
Infix "=?" := F32.eqb : f32_scope.

(** ** IEEE-754 binary64, for the [double] results of [sqrt] and [pow] *)

Module F64.

Definition prec : Z := 53.
Definition emax : Z := 1024.

Definition f64 : Type := spec_float.

(** [float] to [double]: exact. *)
Definition of_f32 (a : f32) : f64 :=
  match a with
  | S754_finite s m e => binary_normalize prec emax (cond_Zopp s (Zpos m)) e s
  | _ => a
  end.

(** [double] to [float]: round to nearest even. *)
Definition to_f32 (a : f64) : f32 :=
  match a with
  | S754_finite s m e =>
      binary_normalize F32.prec F32.emax (cond_Zopp s (Zpos m)) e s
  | _ => a
  end.

Definition add : f64 -> f64 -> f64 := SFadd prec emax.
Definition mul : f64 -> f64 -> f64 := SFmul prec emax.
Definition sqrt : f64 -> f64 := SFsqrt prec emax.

(** [pow(a, 2)] for a [float] argument: the square of a 24-bit
    significand is a [double]. *)
Definition square (a : f32) : f64 := mul (of_f32 a) (of_f32 a).

(** [sqrt(pow(a, 2) + pow(b, 2))] *)
Definition hypot (a b : f32) : f64 := sqrt (add (square a) (square b)).

Definition to_s32 (a : f64) : option Z := F32.to_range in_s32 a.

End F64.

(** ** Vectors ([brvec2], [brvec3], [brvec4] and their integer variants) *)

Record vec2 (A : Type) : Type := Vec2 { v2x : A; v2y : A }.
Record vec3 (A : Type) : Type := Vec3 { v3x : A; v3y : A; v3z : A }.
Record vec4 (A : Type) : Type := Vec4 { vx : A; vy : A; vz : A; vw : A }.

Arguments Vec2 {A} _ _.
Arguments v2x {A} _.
Arguments v2y {A} _.
Arguments Vec3 {A} _ _ _.
Arguments v3x {A} _.
Arguments v3y {A} _.
Arguments v3z {A} _.
Arguments Vec4 {A} _ _ _ _.
Arguments vx {A} _.
Arguments vy {A} _.
Arguments vz {A} _.
Arguments vw {A} _.

Abbreviation brvec2 := (vec2 f32).
Abbreviation brvec3 := (vec3 f32).
Abbreviation brvec4 := (vec4 f32).
Abbreviation brvec2i := (vec2 Z).
Abbreviation brvec3i := (vec3 Z).
Abbreviation brvec2ui := (vec2 Z).
Abbreviation brvec3ui := (vec3 Z).
Abbreviation brvec4ui := (vec4 Z).

(** ** Enumerants

    The [#define]d constants are abbreviations, so that a C [switch] over them
    reads as a [match]. *)

Abbreviation BR_NUM_TEXTURE_UNITS := (256%Z).

Abbreviation BR_DOUBLE_BUFFER := (0%Z).
Abbreviation BR_DEPTH_WRITE := (1%Z).
Abbreviation BR_DEPTH_TEST := (2%Z).
Abbreviation BR_PERSPECTIVE_CORRECTION := (3%Z).
Abbreviation BR_TEXTURE := (4%Z).
Abbreviation BR_BLEND := (5%Z).
Abbreviation BR_CULL := (6%Z).
Abbreviation BR_CLIP := (7%Z).
Abbreviation BR_PERSPECTIVE_DIVISION := (8%Z).
Abbreviation BR_SCALE_Z := (9%Z).
Abbreviation BR_VERTEX_SHADER := (10%Z).
Abbreviation BR_FRAGMENT_SHADER := (11%Z).
Abbreviation BR_FILL := (14%Z).
Abbreviation BR_LINE := (15%Z).
Abbreviation BR_POINT := (16%Z).
Abbreviation BR_TRIANGLE := (17%Z).
Abbreviation BR_TRIANGLES := (18%Z).
Abbreviation BR_LINES := (19%Z).
Abbreviation BR_POINTS := (20%Z).
Abbreviation BR_VERTEX_ARRAY := (21%Z).
Abbreviation BR_COLOR_ARRAY := (22%Z).
Abbreviation BR_NORMAL_ARRAY := (23%Z).
Abbreviation BR_TEXCOORD_ARRAY := (24%Z).
Abbreviation BR_CW := (25%Z).
Abbreviation BR_CCW := (26%Z).
Abbreviation BR_R8G8B8A8 := (27%Z).
Abbreviation BR_R8G8B8 := (28%Z).
Abbreviation BR_A8B8G8R8 := (29%Z).
Abbreviation BR_B8G8R8 := (30%Z).
Abbreviation BR_R5G5B5A1 := (31%Z).
Abbreviation BR_R5G5B5 := (32%Z).
Abbreviation BR_A1B5G5R5 := (33%Z).
Abbreviation BR_B5G5R5 := (34%Z).
Abbreviation BR_R3G2B2A1 := (35%Z).
Abbreviation BR_R3G3B2 := (36%Z).
Abbreviation BR_A1B2G2R3 := (37%Z).
Abbreviation BR_B2G3R3 := (38%Z).
Abbreviation BR_D16 := (39%Z).
Abbreviation BR_D32 := (40%Z).
Abbreviation BR_VERTEX_TYPE := (41%Z).
Abbreviation BR_VERTEX_POSITION := (42%Z).
Abbreviation BR_VERTEX_COLOR := (43%Z).
Abbreviation BR_VERTEX_NORMALS := (44%Z).
Abbreviation BR_VERTEX_TEXTURE_COORDINATES := (45%Z).
Abbreviation BR_PRIMITIVE_COLOR := (46%Z).
Abbreviation BR_TEXTURE_COLOR := (47%Z).
Abbreviation BR_FRAGMENT_COLOR := (48%Z).
Abbreviation BR_BARY_LINEAR := (49%Z).
Abbreviation BR_BARY_PERSPECTIVE := (50%Z).
Abbreviation BR_FRAGMENT_POSITION := (51%Z).
Abbreviation BR_FRAGMENT_DEPTH := (52%Z).
Abbreviation BR_COLOR_BUFFER_BIT := (0x80000000%Z).
Abbreviation BR_DEPTH_BUFFER_BIT := (0x40000000%Z).

(** ** Pixel read/write macros

    The arguments are [uint8_t] (or [uint32_t]) values promoted to [int];
    the outer cast keeps the low bits of the result. *)

Definition _BR_R8G8B8A8 (r g b a : Z) : Z :=
  u32 (Z.lor (Z.lor (Z.lor a (Z.shiftl b 8)) (Z.shiftl g 16)) (Z.shiftl r 24)).
Definition _BR_R8G8B8A8_R (x : Z) : Z := u8 (Z.shiftr (Z.land x 0xFF000000) 24).
Definition _BR_R8G8B8A8_G (x : Z) : Z := u8 (Z.shiftr (Z.land x 0x00FF0000) 16).
Definition _BR_R8G8B8A8_B (x : Z) : Z := u8 (Z.shiftr (Z.land x 0x0000FF00) 8).
Definition _BR_R8G8B8A8_A (x : Z) : Z := u8 (Z.land x 0x000000FF).
Definition _BR_R8G8B8 (r g b : Z) : Z :=
  u32 (Z.lor (Z.lor b (Z.shiftl g 8)) (Z.shiftl r 16)).
Definition _BR_R8G8B8_R (x : Z) : Z := u8 (Z.shiftr (Z.land x 0xFF0000) 16).
Definition _BR_R8G8B8_G (x : Z) : Z := u8 (Z.shiftr (Z.land x 0x00FF00) 8).
Definition _BR_R8G8B8_B (x : Z) : Z := u8 (Z.land x 0x0000FF).
Definition _BR_A8B8G8R8 (r g b a : Z) : Z :=
  u32 (Z.lor (Z.lor (Z.lor r (Z.shiftl g 8)) (Z.shiftl b 16)) (Z.shiftl a 24)).
Definition _BR_A8B8G8R8_R (x : Z) : Z := u8 (Z.land x 0x000000FF).
Definition _BR_A8B8G8R8_G (x : Z) : Z := u8 (Z.shiftr (Z.land x 0x0000FF00) 8).
Definition _BR_A8B8G8R8_B (x : Z) : Z := u8 (Z.shiftr (Z.land x 0x00FF0000) 16).
Definition _BR_A8B8G8R8_A (x : Z) : Z := u8 (Z.shiftr (Z.land x 0xFF000000) 24).
Definition _BR_B8G8R8 (r g b : Z) : Z :=
  u32 (Z.lor (Z.lor r (Z.shiftl g 8)) (Z.shiftl b 16)).
Definition _BR_B8G8R8_R (x : Z) : Z := u8 (Z.land x 0x0000FF).
Definition _BR_B8G8R8_G (x : Z) : Z := u8 (Z.shiftr (Z.land x 0x00FF00) 8).
Definition _BR_B8G8R8_B (x : Z) : Z := u8 (Z.shiftr (Z.land x 0xFF0000) 16).
Definition _BR_R5G5B5A1 (r g b a : Z) : Z :=
  u16 (Z.lor (Z.lor (Z.lor a (Z.shiftl b 1)) (Z.shiftl g 6)) (Z.shiftl r 11)).
Definition _BR_R5G5B5A1_R (x : Z) : Z := u8 (Z.shiftr (Z.land x 0xF800) 11).
Definition _BR_R5G5B5A1_G (x : Z) : Z := u8 (Z.shiftr (Z.land x 0x7C0) 6).
Definition _BR_R5G5B5A1_B (x : Z) : Z := u8 (Z.shiftr (Z.land x 0x3E) 1).
Definition _BR_R5G5B5A1_A (x : Z) : Z := u8 (Z.land x 0x1).
Definition _BR_R5G5B5 (r g b : Z) : Z :=
  u16 (Z.lor (Z.lor b (Z.shiftl g 5)) (Z.shiftl r 10)).
Definition _BR_R5G5B5_R (x : Z) : Z := u8 (Z.shiftr (Z.land x 0x7C00) 10).
Definition _BR_R5G5B5_G (x : Z) : Z := u8 (Z.shiftr (Z.land x 0x3E0) 5).
Definition _BR_R5G5B5_B (x : Z) : Z := u8 (Z.land x 0x1F).
Definition _BR_A1B5G5R5 (r g b a : Z) : Z :=
  u16 (Z.lor (Z.lor (Z.lor r (Z.shiftl g 5)) (Z.shiftl b 10)) (Z.shiftl a 15)).
Definition _BR_A1B5G5R5_R (x : Z) : Z := u8 (Z.land x 0x1F).
Definition _BR_A1B5G5R5_G (x : Z) : Z := u8 (Z.shiftr (Z.land x 0x3E0) 5).
Definition _BR_A1B5G5R5_B (x : Z) : Z := u8 (Z.shiftr (Z.land x 0x7C00) 10).
Definition _BR_A1B5G5R5_A (x : Z) : Z := u8 (Z.shiftr (Z.land x 0x8000) 15).
Definition _BR_B5G5R5 (r g b : Z) : Z :=
  u16 (Z.lor (Z.lor r (Z.shiftl g 5)) (Z.shiftl b 10)).
Definition _BR_R3G2B2A1 (r g b a : Z) : Z :=
  u8 (Z.lor (Z.lor (Z.lor a (Z.shiftl b 1)) (Z.shiftl g 3)) (Z.shiftl r 5)).
Definition _BR_R3G2B2A1_R (x : Z) : Z := u8 (Z.shiftr (Z.land x 0xE0) 5).
Definition _BR_R3G2B2A1_G (x : Z) : Z := u8 (Z.shiftr (Z.land x 0x18) 3).
Definition _BR_R3G2B2A1_B (x : Z) : Z := u8 (Z.shiftr (Z.land x 0x6) 1).
Definition _BR_R3G2B2A1_A (x : Z) : Z := u8 (Z.land x 0x1).
Definition _BR_R3G3B2 (r g b : Z) : Z :=
  u8 (Z.lor (Z.lor b (Z.shiftl g 2)) (Z.shiftl r 5)).
Definition _BR_R3G3B2_R (x : Z) : Z := u8 (Z.shiftr (Z.land x 0xE0) 5).
Definition _BR_R3G3B2_G (x : Z) : Z := u8 (Z.shiftr (Z.land x 0x1C) 2).
Definition _BR_R3G3B2_B (x : Z) : Z := u8 (Z.land x 0x3).
Definition _BR_A1B2G2R3 (r g b a : Z) : Z :=
  u8 (Z.lor (Z.lor (Z.lor r (Z.shiftl g 3)) (Z.shiftl b 5)) (Z.shiftl a 7)).
Definition _BR_B2G3R3 (r g b : Z) : Z :=
  u8 (Z.lor (Z.lor r (Z.shiftl g 3)) (Z.shiftl b 6)).

(** Reciprocals, as the [float] nearest to the decimal literal. *)
Definition _INV_65536 : f32 := F32.of_ratio 1525878 100000000000.
Definition _INV_255 : f32 := F32.of_ratio 392156862 100000000000.
Definition _INV_31 : f32 := F32.of_ratio 3225806451 100000000000.
Definition _INV_7 : f32 := F32.of_ratio 14285714285 100000000000.
Definition _INV_3 : f32 := F32.of_ratio 33333333333 100000000000.

(** ** Pointers and externally owned memory

    A pointer is the name of a block, or [None] for [NULL].  A block is an
    array of cells; the library reads and writes a block at the one cell
    width given by the format under which the block is bound, so a block
    is the list of its cells at that width. *)

Abbreviation ptr := (option nat).
Abbreviation cells := (list Z).
Abbreviation memory := (gmap nat (list Z)).

(** ** Shader callbacks

    A shader receives the enabled attributes in a data blob together with
    an array of their tags and their count; the model passes the list of
    tagged values.  A fragment shader also receives the [discard] flag,
    initially false, and the model returns its final value. *)

Inductive vattr : Type :=
| VType (t : Z)
| VPosition (p : brvec4)
| VColor (c : brvec4)
| VNormals (n : brvec3)
| VTcoords (t : brvec2).

Inductive fattr : Type :=
| FColor (c : brvec4)
| FBary (b : brvec3)
| FPosition (p : brvec2i)
| FDepth (d : option f32).

Definition vshader_t : Type := list (Z * vattr) -> brvec4.
Definition fshader_t : Type := list (Z * fattr) -> brvec4 * bool.

(** ** The context ([struct brcontext]) *)

Record brcontext : Type := Build_brcontext {
  cb : ptr;
  cb2 : ptr;
  db : ptr;
  db2 : ptr;
  cb_type : Z;
  cb2_type : Z;
  db_type : Z;
  db2_type : Z;
  rb_width : Z;
  rb_height : Z;
  rb2_width : Z;
  rb2_height : Z;
  clear_color : brvec4;
  clear_depth : f32;
  point_radius : f32;
  double_buffer : bool;
  depth_write : bool;
  depth_test : bool;
  persp_corr : bool;
  texture : bool;
  blend : bool;
  cull : bool;
  cull_winding : Z;
  clip : bool;
  persp_div : bool;
  scale_z : bool;
  poly_mode : Z;
  vertex_array : bool;
  color_array : bool;
  normal_array : bool;
  tcoord_array : bool;
  vertex_stride : Z;
  color_stride : Z;
  normal_stride : Z;
  tcoord_stride : Z;
  vertex_offset : Z;
  color_offset : Z;
  normal_offset : Z;
  tcoord_offset : Z;
  vertex_count : Z;
  color_count : Z;
  texture_unit : Z;
  textures : list ptr;
  texture_widths : list Z;
  texture_heights : list Z;
  texture_formats : list Z;
  texture_compressed_booleans : list bool;
  vshader : option vshader_t;
  fshader : option fshader_t;
  sh_vposition : bool;
  sh_vcolor : bool;
  sh_vtcoords : bool;
  sh_vnormals : bool;
  sh_vtype : bool;
  sh_prim_color : bool;
  sh_tex_color : bool;
  sh_frag_color : bool;
  sh_bary_linear : bool;
  sh_bary_persp : bool;
  sh_fposition : bool;
  sh_fdepth : bool
}.

(** Assignment to one field of a context ([c->f = v]): the context rebuilt
    from its own fields, with [v] in the place of [f]. *)

Definition rebuild (c : brcontext) : brcontext :=
  Build_brcontext (cb c) (cb2 c) (db c) (db2 c) (cb_type c) (cb2_type c)
    (db_type c) (db2_type c) (rb_width c) (rb_height c) (rb2_width c)
    (rb2_height c) (clear_color c) (clear_depth c) (point_radius c)
    (double_buffer c) (depth_write c) (depth_test c) (persp_corr c)
    (texture c) (blend c) (cull c) (cull_winding c) (clip c) (persp_div c)
    (scale_z c) (poly_mode c) (vertex_array c) (color_array c)
    (normal_array c) (tcoord_array c) (vertex_stride c) (color_stride c)
    (normal_stride c) (tcoord_stride c) (vertex_offset c) (color_offset c)
    (normal_offset c) (tcoord_offset c) (vertex_count c) (color_count c)
    (texture_unit c) (textures c) (texture_widths c) (texture_heights c)
    (texture_formats c) (texture_compressed_booleans c) (vshader c)
    (fshader c) (sh_vposition c) (sh_vcolor c) (sh_vtcoords c)
    (sh_vnormals c) (sh_vtype c) (sh_prim_color c) (sh_tex_color c)
    (sh_frag_color c) (sh_bary_linear c) (sh_bary_persp c) (sh_fposition c)
    (sh_fdepth c).

Ltac assign f :=
  let e := eval cbv delta [rebuild] in rebuild in
  let e := eval pattern f in e in
  match e with
  | ?F _ => let r := eval cbv beta in (fun v c => F (fun _ => v) c) in exact r
  end.

Definition set_cb : ptr -> brcontext -> brcontext := ltac:(assign cb).
Definition set_cb2 : ptr -> brcontext -> brcontext := ltac:(assign cb2).
Definition set_db : ptr -> brcontext -> brcontext := ltac:(assign db).
Definition set_db2 : ptr -> brcontext -> brcontext := ltac:(assign db2).
Definition set_cb_type : Z -> brcontext -> brcontext := ltac:(assign cb_type).
Definition set_cb2_type : Z -> brcontext -> brcontext := ltac:(assign cb2_type).
Definition set_db_type : Z -> brcontext -> brcontext := ltac:(assign db_type).
Definition set_db2_type : Z -> brcontext -> brcontext := ltac:(assign db2_type).
Definition set_rb_width : Z -> brcontext -> brcontext := ltac:(assign rb_width).
Definition set_rb_height : Z -> brcontext -> brcontext := ltac:(assign rb_height).
Definition set_rb2_width : Z -> brcontext -> brcontext := ltac:(assign rb2_width).
Definition set_rb2_height : Z -> brcontext -> brcontext := ltac:(assign rb2_height).
Definition set_clear_color : brvec4 -> brcontext -> brcontext := ltac:(assign clear_color).
Definition set_clear_depth : f32 -> brcontext -> brcontext := ltac:(assign clear_depth).
Definition set_point_radius : f32 -> brcontext -> brcontext := ltac:(assign point_radius).
Definition set_double_buffer : bool -> brcontext -> brcontext := ltac:(assign double_buffer).
Definition set_depth_write : bool -> brcontext -> brcontext := ltac:(assign depth_write).
Definition set_depth_test : bool -> brcontext -> brcontext := ltac:(assign depth_test).
Definition set_persp_corr : bool -> brcontext -> brcontext := ltac:(assign persp_corr).
Definition set_texture : bool -> brcontext -> brcontext := ltac:(assign texture).
Definition set_blend : bool -> brcontext -> brcontext := ltac:(assign blend).
Definition set_cull : bool -> brcontext -> brcontext := ltac:(assign cull).
Definition set_cull_winding : Z -> brcontext -> brcontext := ltac:(assign cull_winding).
Definition set_clip : bool -> brcontext -> brcontext := ltac:(assign clip).
Definition set_persp_div : bool -> brcontext -> brcontext := ltac:(assign persp_div).
Definition set_scale_z : bool -> brcontext -> brcontext := ltac:(assign scale_z).
Definition set_poly_mode : Z -> brcontext -> brcontext := ltac:(assign poly_mode).
Definition set_vertex_array : bool -> brcontext -> brcontext := ltac:(assign vertex_array).
Definition set_color_array : bool -> brcontext -> brcontext := ltac:(assign color_array).
Definition set_normal_array : bool -> brcontext -> brcontext := ltac:(assign normal_array).
Definition set_tcoord_array : bool -> brcontext -> brcontext := ltac:(assign tcoord_array).
Definition set_vertex_stride : Z -> brcontext -> brcontext := ltac:(assign vertex_stride).
Definition set_color_stride : Z -> brcontext -> brcontext := ltac:(assign color_stride).
Definition set_normal_stride : Z -> brcontext -> brcontext := ltac:(assign normal_stride).
Definition set_tcoord_stride : Z -> brcontext -> brcontext := ltac:(assign tcoord_stride).
Definition set_vertex_offset : Z -> brcontext -> brcontext := ltac:(assign vertex_offset).
Definition set_color_offset : Z -> brcontext -> brcontext := ltac:(assign color_offset).
Definition set_normal_offset : Z -> brcontext -> brcontext := ltac:(assign normal_offset).
Definition set_tcoord_offset : Z -> brcontext -> brcontext := ltac:(assign tcoord_offset).
Definition set_vertex_count : Z -> brcontext -> brcontext := ltac:(assign vertex_count).
Definition set_color_count : Z -> brcontext -> brcontext := ltac:(assign color_count).
Definition set_texture_unit : Z -> brcontext -> brcontext := ltac:(assign texture_unit).
Definition set_textures : list ptr -> brcontext -> brcontext := ltac:(assign textures).
Definition set_texture_widths : list Z -> brcontext -> brcontext := ltac:(assign texture_widths).
Definition set_texture_heights : list Z -> brcontext -> brcontext := ltac:(assign texture_heights).
Definition set_texture_formats : list Z -> brcontext -> brcontext := ltac:(assign texture_formats).
Definition set_texture_compressed_booleans : list bool -> brcontext -> brcontext := ltac:(assign texture_compressed_booleans).
Definition set_vshader : option vshader_t -> brcontext -> brcontext := ltac:(assign vshader).
Definition set_fshader : option fshader_t -> brcontext -> brcontext := ltac:(assign fshader).
Definition set_sh_vposition : bool -> brcontext -> brcontext := ltac:(assign sh_vposition).
Definition set_sh_vcolor : bool -> brcontext -> brcontext := ltac:(assign sh_vcolor).
Definition set_sh_vtcoords : bool -> brcontext -> brcontext := ltac:(assign sh_vtcoords).
Definition set_sh_vnormals : bool -> brcontext -> brcontext := ltac:(assign sh_vnormals).
Definition set_sh_vtype : bool -> brcontext -> brcontext := ltac:(assign sh_vtype).
Definition set_sh_prim_color : bool -> brcontext -> brcontext := ltac:(assign sh_prim_color).
Definition set_sh_tex_color : bool -> brcontext -> brcontext := ltac:(assign sh_tex_color).
Definition set_sh_frag_color : bool -> brcontext -> brcontext := ltac:(assign sh_frag_color).
Definition set_sh_bary_linear : bool -> brcontext -> brcontext := ltac:(assign sh_bary_linear).
Definition set_sh_bary_persp : bool -> brcontext -> brcontext := ltac:(assign sh_bary_persp).
Definition set_sh_fposition : bool -> brcontext -> brcontext := ltac:(assign sh_fposition).
Definition set_sh_fdepth : bool -> brcontext -> brcontext := ltac:(assign sh_fdepth).

(** ** Process state: the contexts that exist, the current context
    ([static brcontext* _brcontext]) and the memory owned by the caller *)

Record world : Type := World {
  contexts : gmap nat brcontext;
  _brcontext : ptr;
  mem : memory
}.

(** Reading and writing cell [i] of the block behind a pointer; undefined
    through [NULL], through a pointer to no block and outside the block. *)

Definition load (m : memory) (p : ptr) (i : Z) : option Z :=
  match p with
  | None => None
  | Some a =>
      match m !! a with
      | None => None
      | Some b => if 0 <=? i then b !! Z.to_nat i else None
      end
  end.

Definition store (m : memory) (p : ptr) (i v : Z) : option memory :=
  match p with
  | None => None
  | Some a =>
      match m !! a with
      | None => None
      | Some b =>
          if (0 <=? i) && (i <? Z.of_nat (length b))
          then Some (<[a := <[Z.to_nat i := v]> b]> m)
          else None
      end
  end.

(** ** Guarded divisions *)

Definition _fdiv (a b : f32) : f32 :=
  if (b =? F32.zero)%f32 then F32.zero else (a / b)%f32.

Definition _idiv (a b : Z) : Z :=
  if b =? 0 then 0 else s32 (cdiv a b).

(** ** Pixel codec: [_plot_pixel] *)

(** [uint8_t c = (chan * max) >> 16] on a [uint32_t] channel. *)
Definition chan8 (chan max : Z) : Z := u8 (Z.shiftr (u32 (chan * max)) 16).

(** [uint8_t p = (src*alpha) + (dst*_1_minus_alpha)]. *)
Definition blend8 (src dst : Z) (alpha _1_minus_alpha : f32) : option Z :=
  F32.to_u8 (F32.of_Z src * alpha + F32.of_Z dst * _1_minus_alpha)%f32.

Definition _plot_pixel (ctx : brcontext) (index : Z) (rgba : brvec4ui)
    (blend : bool) (m : memory) : option memory :=
  let cb := cb ctx in
  match cb_type ctx with
  | BR_R8G8B8 =>
      let r := chan8 (vx rgba) 255 in
      let g := chan8 (vy rgba) 255 in
      let b := chan8 (vz rgba) 255 in
      let a := chan8 (vw rgba) 255 in
      if negb blend then store m cb index (_BR_B8G8R8 r g b)
      else if a =? 255 then store m cb index (_BR_R8G8B8 r g b)
      else if a =? 0 then Some m
      else
        dst_val ← load m cb index;
        let dst_r := _BR_R8G8B8_R r in
        let dst_g := _BR_R8G8B8_G g in
        let dst_b := _BR_R8G8B8_B b in
        let alpha := (F32.of_Z a * _INV_255)%f32 in
        let _1_minus_alpha := (F32.one - alpha)%f32 in
        pr ← blend8 r dst_r alpha _1_minus_alpha;
        pg ← blend8 g dst_g alpha _1_minus_alpha;
        pb ← blend8 b dst_b alpha _1_minus_alpha;
        store m cb index (_BR_R8G8B8 pr pg pb)
  | BR_R8G8B8A8 =>
      let r := chan8 (vx rgba) 255 in
      let g := chan8 (vy rgba) 255 in
      let b := chan8 (vz rgba) 255 in
      let a := chan8 (vw rgba) 255 in
      if negb blend then store m cb index (_BR_R8G8B8A8 r g b a)
      else if a =? 255 then store m cb index (_BR_R8G8B8A8 r g b a)
      else if a =? 0 then Some m
      else
        dst_val ← load m cb index;
        let dst_r := _BR_R8G8B8A8_R dst_val in
        let dst_g := _BR_R8G8B8A8_G dst_val in
        let dst_b := _BR_R8G8B8A8_B dst_val in
        let dst_a := _BR_R8G8B8A8_A dst_val in
        let alpha := (F32.of_Z a * _INV_255)%f32 in
        let _1_minus_alpha := (F32.one - alpha)%f32 in
        pr ← blend8 r dst_r alpha _1_minus_alpha;
        pg ← blend8 g dst_g alpha _1_minus_alpha;
        pb ← blend8 b dst_b alpha _1_minus_alpha;
        pa ← blend8 a dst_a alpha _1_minus_alpha;
        store m cb index (_BR_R8G8B8A8 pr pg pb pa)
  | BR_B8G8R8 =>
      let r := chan8 (vx rgba) 255 in
      let g := chan8 (vy rgba) 255 in
      let b := chan8 (vz rgba) 255 in
      let a := chan8 (vw rgba) 255 in
      if negb blend then store m cb index (_BR_B8G8R8 r g b)
      else if a =? 255 then store m cb index (_BR_B8G8R8 r g b)
      else if a =? 0 then Some m
      else
        dst_val ← load m cb index;
        let dst_r := _BR_B8G8R8_R r in
        let dst_g := _BR_B8G8R8_G g in
        let dst_b := _BR_B8G8R8_B b in
        let alpha := (F32.of_Z a * _INV_255)%f32 in
        let _1_minus_alpha := (F32.one - alpha)%f32 in
        pr ← blend8 r dst_r alpha _1_minus_alpha;
        pg ← blend8 g dst_g alpha _1_minus_alpha;
        pb ← blend8 b dst_b alpha _1_minus_alpha;
        store m cb index (_BR_B8G8R8 pr pg pb)
  | BR_A8B8G8R8 =>
      let r := chan8 (vx rgba) 255 in
      let g := chan8 (vy rgba) 255 in
      let b := chan8 (vz rgba) 255 in
      let a := chan8 (vw rgba) 255 in
      if negb blend then store m cb index (_BR_A8B8G8R8 r g b a)
      else if a =? 255 then store m cb index (_BR_A8B8G8R8 r g b a)
      else if a =? 0 then Some m
      else
        dst_val ← load m cb index;
        let dst_r := _BR_A8B8G8R8_R dst_val in
        let dst_g := _BR_A8B8G8R8_G dst_val in
        let dst_b := _BR_A8B8G8R8_B dst_val in
        let dst_a := _BR_A8B8G8R8_A dst_val in
        let alpha := (F32.of_Z a * _INV_255)%f32 in
        let _1_minus_alpha := (F32.one - alpha)%f32 in
        pr ← blend8 r dst_r alpha _1_minus_alpha;
        pg ← blend8 g dst_g alpha _1_minus_alpha;
        pb ← blend8 b dst_b alpha _1_minus_alpha;
        pa ← blend8 a dst_a alpha _1_minus_alpha;
        store m cb index (_BR_A8B8G8R8 pr pg pb pa)
  | BR_R5G5B5 =>
      let r := chan8 (vx rgba) 31 in
      let g := chan8 (vy rgba) 31 in
      let b := chan8 (vz rgba) 31 in
      if negb blend then store m cb index (_BR_R5G5B5 r g b)
      else if vw rgba <? 32768 then Some m
      else store m cb index (_BR_R5G5B5 r g b)
  | BR_R5G5B5A1 =>
      let r := chan8 (vx rgba) 31 in
      let g := chan8 (vy rgba) 31 in
      let b := chan8 (vz rgba) 31 in
      if negb blend then store m cb index (_BR_R5G5B5A1 r g b 1)
      else if vw rgba <? 32768 then Some m
      else store m cb index (_BR_R5G5B5A1 r g b 1)
  | BR_B5G5R5 =>
      let r := chan8 (vx rgba) 31 in
      let g := chan8 (vy rgba) 31 in
      let b := chan8 (vz rgba) 31 in
      if negb blend then store m cb index (_BR_B5G5R5 r g b)
      else if vw rgba <? 32768 then Some m
      else store m cb index (_BR_B5G5R5 r g b)
  | BR_A1B5G5R5 =>
      let r := chan8 (vx rgba) 31 in
      let g := chan8 (vy rgba) 31 in
      let b := chan8 (vz rgba) 31 in
      if negb blend then store m cb index (_BR_A1B5G5R5 r g b 1)
      else if vw rgba <? 32768 then Some m
      else store m cb index (_BR_A1B5G5R5 r g b 1)
  | BR_R3G3B2 =>
      let r := chan8 (vx rgba) 7 in
      let g := chan8 (vy rgba) 7 in
      let b := chan8 (vz rgba) 3 in
      if negb blend then store m cb index (_BR_R3G3B2 r g b)
      else if vw rgba <? 32768 then Some m
      else store m cb index (_BR_R3G3B2 r g b)
  | BR_R3G2B2A1 =>
      let r := chan8 (vx rgba) 7 in
      let g := chan8 (vy rgba) 3 in
      let b := chan8 (vz rgba) 3 in
      if negb blend then store m cb index (_BR_R3G2B2A1 r g b 1)
      else if vw rgba <? 32768 then Some m
      else store m cb index (_BR_R3G2B2A1 r g b 1)
  | BR_B2G3R3 =>
      let r := chan8 (vx rgba) 7 in
      let g := chan8 (vy rgba) 7 in
      let b := chan8 (vz rgba) 3 in
      if negb blend then store m cb index (_BR_B2G3R3 r g b)
      else if vw rgba <? 32768 then Some m
      else store m cb index (_BR_B2G3R3 r g b)
  | BR_A1B2G2R3 =>
      let r := chan8 (vx rgba) 7 in
      let g := chan8 (vy rgba) 3 in
      let b := chan8 (vz rgba) 3 in
      if negb blend then store m cb index (_BR_A1B2G2R3 r g b 1)
      else if vw rgba <? 32768 then Some m
      else store m cb index (_BR_A1B2G2R3 r g b 1)
  | _ => Some m
  end.

(** ** Depth codec *)

Definition _plot_depth (ctx : brcontext) (index depth : Z) (m : memory)
    : option memory :=
  match db_type ctx with
  | BR_D16 => store m (db ctx) index (u16 depth)
  | BR_D32 => store m (db ctx) index (u32 depth)
  | _ => Some m
  end.

(** No value is returned when the depth format is neither [BR_D16] nor
    [BR_D32]: the result is then indeterminate ([None]). *)
Definition _get_depth (ctx : brcontext) (index : Z) (m : memory) : option Z :=
  match db_type ctx with
  | BR_D16 => load m (db ctx) index
  | BR_D32 => load m (db ctx) index
  | _ => None
  end.

(** Indeterminate ([None]) for a depth format that is neither [BR_D16] nor
    [BR_D32], and when the product does not fit [int64_t]. *)
Definition _convert_depth (ctx : brcontext) (depth : f32) : option Z :=
  match db_type ctx with
  | BR_D16 => F32.to_s64 (depth * F32.of_Z 0xFFFF)%f32
  | BR_D32 => F32.to_s64 (depth * F32.of_Z 0xFFFFFFFF)%f32
  | _ => None
  end.

Definition _is_valid_depth (ctx : brcontext) (depth : Z) : bool :=
  match db_type ctx with
  | BR_D16 => (0 <=? depth) && (depth <=? 0xFFFF)
  | BR_D32 => (0 <=? depth) && (depth <=? 0xFFFFFFFF)
  | _ => false
  end.

Definition _is_pixel_format (value : Z) : bool :=
  match value with
  | BR_R8G8B8A8 | BR_R8G8B8 | BR_A8B8G8R8 | BR_B8G8R8
  | BR_R5G5B5A1 | BR_R5G5B5 | BR_A1B5G5R5 | BR_B5G5R5
  | BR_R3G2B2A1 | BR_R3G3B2 | BR_A1B2G2R3 | BR_B2G3R3 => true
  | _ => false
  end.

(** ** Texture sampler: [_get_texel] *)

(** The clamp of one texel coordinate, as the source writes it:
    [if(x >= width) x = width - 1; if(x < 0) x = 0;] with [x] an [int] and
    [width] a [uint32_t], so that the first comparison is made on the
    unsigned reading of [x]. *)
Definition clamp_texel (x width : Z) : Z :=
  let x := if width <=? u32 x then s32 (width - 1) else x in
  if x <? 0 then 0 else x.

(** [(uint8_t)c * inv] and the 0/1 alpha of the 1-bit formats. *)
Definition unorm (c : Z) (inv : f32) : f32 := (F32.of_Z c * inv)%f32.
Definition alpha1 (c : Z) : f32 := F32.of_Z (if c =? 0 then 0 else 1).

(** [col] is the colour before the call; it is returned unchanged when no
    context is bound or [format] is not a pixel format. *)
Definition _get_texel (cur : option brcontext) (x y : Z) (col : brvec4)
    (texture : ptr) (format width height : Z) (compressed : bool)
    (m : memory) : option brvec4 :=
  if negb (bool_decide (is_Some cur)) || negb (_is_pixel_format format)
  then Some col
  else
    let x := clamp_texel x width in
    let y := clamp_texel y height in
    if negb compressed then
      let texel_width :=
        match format with
        | BR_R8G8B8A8 | BR_A8B8G8R8 | BR_R5G5B5A1 | BR_A1B5G5R5
        | BR_R3G2B2A1 | BR_A1B2G2R3 => 4
        | _ => 3
        end in
      let texel (k : Z) := load m texture (u32 ((y * width + x) * texel_width) + k) in
      match format with
      | BR_R8G8B8A8 =>
          t0 ← texel 0; t1 ← texel 1; t2 ← texel 2; t3 ← texel 3;
          Some (Vec4 (unorm t0 _INV_255) (unorm t1 _INV_255)
                     (unorm t2 _INV_255) (unorm t3 _INV_255))
      | BR_R8G8B8 =>
          t0 ← texel 0; t1 ← texel 1; t2 ← texel 2;
          Some (Vec4 (unorm t0 _INV_255) (unorm t1 _INV_255)
                     (unorm t2 _INV_255) F32.one)
      | BR_A8B8G8R8 =>
          t3 ← texel 3; t2 ← texel 2; t1 ← texel 1; t0 ← texel 0;
          Some (Vec4 (unorm t3 _INV_255) (unorm t2 _INV_255)
                     (unorm t1 _INV_255) (unorm t0 _INV_255))
      | BR_B8G8R8 =>
          t2 ← texel 2; t1 ← texel 1; t0 ← texel 0;
          Some (Vec4 (unorm t2 _INV_255) (unorm t1 _INV_255)
                     (unorm t0 _INV_255) F32.one)
      | BR_R5G5B5A1 =>
          t0 ← texel 0; t1 ← texel 1; t2 ← texel 2; t3 ← texel 3;
          Some (Vec4 (unorm t0 _INV_31) (unorm t1 _INV_31)
                     (unorm t2 _INV_31) (alpha1 t3))
      | BR_R5G5B5 =>
          t0 ← texel 0; t1 ← texel 1; t2 ← texel 2;
          Some (Vec4 (unorm t0 _INV_31) (unorm t1 _INV_31)
                     (unorm t2 _INV_31) F32.one)
      | BR_A1B5G5R5 =>
          t3 ← texel 3; t2 ← texel 2; t1 ← texel 1; t0 ← texel 0;
          Some (Vec4 (unorm t3 _INV_31) (unorm t2 _INV_31)
                     (unorm t1 _INV_31) (alpha1 t0))
      | BR_B5G5R5 =>
          t2 ← texel 2; t1 ← texel 1; t0 ← texel 0;
          Some (Vec4 (unorm t2 _INV_31) (unorm t1 _INV_31)
                     (unorm t0 _INV_31) F32.one)
      | BR_R3G2B2A1 =>
          t0 ← texel 0; t1 ← texel 1; t2 ← texel 2; t3 ← texel 3;
          Some (Vec4 (unorm t0 _INV_7) (unorm t1 _INV_3)
                     (unorm t2 _INV_3) (alpha1 t3))
      | BR_R3G3B2 =>
          t0 ← texel 0; t1 ← texel 1; t2 ← texel 2;
          Some (Vec4 (unorm t0 _INV_7) (unorm t1 _INV_7)
                     (unorm t2 _INV_3) F32.one)
      | BR_A1B2G2R3 =>
          t3 ← texel 3; t2 ← texel 2; t1 ← texel 1; t0 ← texel 0;
          Some (Vec4 (unorm t3 _INV_7) (unorm t2 _INV_3)
                     (unorm t1 _INV_3) (alpha1 t0))
      | BR_B2G3R3 =>
          t2 ← texel 2; t1 ← texel 1; t0 ← texel 0;
          Some (Vec4 (unorm t2 _INV_7) (unorm t1 _INV_7)
                     (unorm t0 _INV_3) F32.one)
      | _ => Some col
      end
    else
      t ← load m texture (u32 (y * width + x));
      match format with
      | BR_R8G8B8A8 =>
          Some (Vec4 (unorm (_BR_R8G8B8A8_R t) _INV_255)
                     (unorm (_BR_R8G8B8A8_G t) _INV_255)
                     (unorm (_BR_R8G8B8A8_B t) _INV_255)
                     (unorm (_BR_R8G8B8A8_A t) _INV_255))
      | BR_R8G8B8 =>
          Some (Vec4 (unorm (_BR_R8G8B8_R t) _INV_255)
                     (unorm (_BR_R8G8B8_G t) _INV_255)
                     (unorm (_BR_R8G8B8_B t) _INV_255) F32.one)
      | BR_A8B8G8R8 =>
          Some (Vec4 (unorm (_BR_A8B8G8R8_R t) _INV_255)
                     (unorm (_BR_A8B8G8R8_G t) _INV_255)
                     (unorm (_BR_A8B8G8R8_B t) _INV_255)
                     (unorm (_BR_A8B8G8R8_A t) _INV_255))
      | BR_B8G8R8 =>
          Some (Vec4 (unorm (_BR_B8G8R8_R t) _INV_255)
                     (unorm (_BR_B8G8R8_G t) _INV_255)
                     (unorm (_BR_B8G8R8_B t) _INV_255) F32.one)
      | BR_R5G5B5A1 =>
          Some (Vec4 (unorm (_BR_R5G5B5A1_R t) _INV_31)
                     (unorm (_BR_R5G5B5A1_G t) _INV_31)
                     (unorm (_BR_R5G5B5A1_B t) _INV_31)
                     (F32.of_Z (_BR_R5G5B5A1_A t)))
      | BR_R5G5B5 =>
          Some (Vec4 (unorm (_BR_R5G5B5_R t) _INV_31)
                     (unorm (_BR_R5G5B5_G t) _INV_31)
                     (unorm (_BR_R5G5B5_B t) _INV_31) F32.one)
      | BR_A1B5G5R5 =>
          Some (Vec4 (unorm (_BR_A1B5G5R5_R t) _INV_31)
                     (unorm (_BR_A1B5G5R5_G t) _INV_31)
                     (unorm (_BR_A1B5G5R5_B t) _INV_31)
                     (F32.of_Z (_BR_A1B5G5R5_A t)))
      | BR_B5G5R5 =>
          Some (Vec4 (unorm (_BR_A1B5G5R5_R t) _INV_31)
                     (unorm (_BR_A1B5G5R5_G t) _INV_31)
                     (unorm (_BR_A1B5G5R5_B t) _INV_31) F32.one)
      | BR_R3G2B2A1 =>
          Some (Vec4 (unorm (_BR_R3G2B2A1_R t) _INV_7)
                     (unorm (_BR_R3G2B2A1_G t) _INV_3)
                     (unorm (_BR_R3G2B2A1_B t) _INV_3)
                     (F32.of_Z (_BR_R3G2B2A1_A t)))
      | BR_R3G3B2 =>
          Some (Vec4 (unorm (_BR_R3G3B2_R t) _INV_7)
                     (unorm (_BR_R3G3B2_G t) _INV_7)
                     (unorm (_BR_R3G3B2_B t) _INV_3) F32.one)
      | BR_A1B2G2R3 =>
          Some (Vec4 (unorm (_BR_R3G2B2A1_R t) _INV_7)
                     (unorm (_BR_R3G2B2A1_G t) _INV_3)
                     (unorm (_BR_R3G2B2A1_B t) _INV_3)
                     (F32.of_Z (_BR_R3G2B2A1_A t)))
      | BR_B2G3R3 =>
          Some (Vec4 (unorm (_BR_R3G3B2_R t) _INV_7)
                     (unorm (_BR_R3G3B2_G t) _INV_7)
                     (unorm (_BR_R3G3B2_B t) _INV_3) F32.one)
      | _ => Some col
      end.

(** ** API: context state

    Every entry point takes the process state and returns the new one, or
    [None] where the C behaviour is undefined.  An argument of type
    [uint32_t] is the unsigned reading of the value passed. *)

(** [if(!_brcontext) return;] followed by code that uses the current
    context, found at address [a] with contents [c]. *)
Definition with_context (w : world)
    (k : nat -> brcontext -> option world) : option world :=
  match _brcontext w with
  | None => Some w
  | Some a => c ← contexts w !! a; k a c
  end.

(** The same code without the guard: [_brcontext->...] is a null
    dereference when no context is bound. *)
Definition with_context_unguarded (w : world)
    (k : nat -> brcontext -> option world) : option world :=
  a ← _brcontext w; c ← contexts w !! a; k a c.

Definition put_context (a : nat) (c : brcontext) (w : world) : world :=
  World (<[a := c]> (contexts w)) (_brcontext w) (mem w).

Definition new_context : brcontext :=
  {| cb := None; cb2 := None; db := None; db2 := None;
     cb_type := 0; cb2_type := 0; db_type := 0; db2_type := 0;
     rb_width := 0; rb_height := 0; rb2_width := 0; rb2_height := 0;
     clear_color := Vec4 F32.zero F32.zero F32.zero F32.zero;
     clear_depth := F32.one;
     point_radius := F32.one;
     double_buffer := false;
     depth_write := true;
     depth_test := true;
     persp_corr := true;
     texture := true;
     blend := false;
     cull := false;
     cull_winding := BR_CW;
     clip := true;
     persp_div := true;
     scale_z := true;
     poly_mode := BR_FILL;
     vertex_array := false; color_array := false;
     normal_array := false; tcoord_array := false;
     vertex_stride := 0; color_stride := 0;
     normal_stride := 0; tcoord_stride := 0;
     vertex_offset := 0; color_offset := 0;
     normal_offset := 0; tcoord_offset := 0;
     vertex_count := 0; color_count := 0;
     texture_unit := 0;
     textures := replicate (Z.to_nat BR_NUM_TEXTURE_UNITS) None;
     texture_widths := replicate (Z.to_nat BR_NUM_TEXTURE_UNITS) 0;
     texture_heights := replicate (Z.to_nat BR_NUM_TEXTURE_UNITS) 0;
     texture_formats := replicate (Z.to_nat BR_NUM_TEXTURE_UNITS) 0;
     texture_compressed_booleans :=
       replicate (Z.to_nat BR_NUM_TEXTURE_UNITS) false;
     vshader := None; fshader := None;
     sh_vposition := false; sh_vcolor := false; sh_vtcoords := false;
     sh_vnormals := false; sh_vtype := false;
     sh_prim_color := false; sh_tex_color := false; sh_frag_color := false;
     sh_bary_linear := false; sh_bary_persp := false;
     sh_fposition := false; sh_fdepth := false |}.

(** [malloc] returns a block that no live context occupies. *)
Definition brCreateContext (w : world) : world * ptr :=
  let a := fresh (dom (contexts w)) in
  (World (<[a := new_context]> (contexts w)) (_brcontext w) (mem w), Some a).

Definition brBindContext (context : ptr) (w : world) : world :=
  match context with
  | Some a => World (contexts w) (Some a) (mem w)
  | None => w
  end.

Definition brFreeContext (context : ptr) (w : world) : option world :=
  match context with
  | None => Some w
  | Some a =>
      _ ← contexts w !! a;
      Some (World (delete a (contexts w))
                  (if decide (context = _brcontext w) then None
                   else _brcontext w)
                  (mem w))
  end.

Definition brBindRenderbuffer (type width height : Z) (buffer : ptr)
    (w : world) : option world :=
  let type := u32 type in
  let width := u32 width in
  let height := u32 height in
  with_context w (fun a c =>
    if negb (bool_decide (is_Some buffer)) || (width <? 1) || (height <? 1)
    then Some w
    else if (bool_decide (is_Some (cb c)) || bool_decide (is_Some (db c)))
            && (negb (width =? rb_width c) || negb (height =? rb_height c))
    then Some w
    else
      match type with
      | BR_R8G8B8A8 | BR_R8G8B8 | BR_A8B8G8R8 | BR_B8G8R8
      | BR_R5G5B5A1 | BR_R5G5B5 | BR_A1B5G5R5 | BR_B5G5R5
      | BR_R3G2B2A1 | BR_R3G3B2 | BR_A1B2G2R3 | BR_B2G3R3 =>
          Some (put_context a
                  (set_rb_height height (set_rb_width width
                     (set_cb_type type (set_cb buffer c)))) w)
      | BR_D16 | BR_D32 =>
          Some (put_context a
                  (set_rb_height height (set_rb_width width
                     (set_db_type type (set_db buffer c)))) w)
      | _ => Some w
      end).

Definition brUnbindRenderbuffer (buffers : Z) (w : world) : option world :=
  let buffers := u32 buffers in
  with_context w (fun a c =>
    let c := if negb (Z.land buffers BR_COLOR_BUFFER_BIT =? 0)
             then set_cb_type 0 (set_cb None c) else c in
    let c := if negb (Z.land buffers BR_DEPTH_BUFFER_BIT =? 0)
             then set_db_type 0 (set_db None c) else c in
    let c := if negb (bool_decide (is_Some (cb c)))
                && negb (bool_decide (is_Some (db c)))
             then set_rb_height 0 (set_rb_width 0 c) else c in
    Some (put_context a c w)).

Definition brPolygonMode (mode : Z) (w : world) : option world :=
  with_context w (fun a c =>
    match u32 mode with
    | BR_FILL => Some (put_context a (set_poly_mode BR_FILL c) w)
    | BR_LINE => Some (put_context a (set_poly_mode BR_LINE c) w)
    | BR_POINT => Some (put_context a (set_poly_mode BR_POINT c) w)
    | _ => Some w
    end).

Definition brCullWinding (winding : Z) (w : world) : option world :=
  with_context w (fun a c =>
    match u32 winding with
    | BR_CW | BR_CCW =>
        Some (put_context a (set_cull_winding (u32 winding) c) w)
    | _ => Some w
    end).

Definition brPointSize (radius : f32) (w : world) : option world :=
  with_context w (fun a c =>
    if (radius >=? F32.zero)%f32
    then Some (put_context a (set_point_radius radius c) w)
    else Some (put_context a (set_point_radius F32.zero c) w)).

(** The body shared by [brEnable] ([v = true]) and [brDisable]
    ([v = false]): the same [switch] with the other constant. *)
Definition set_toggle (state : Z) (v : bool) (c : brcontext)
    : option brcontext :=
  match state with
  | BR_DOUBLE_BUFFER => Some (set_double_buffer v c)
  | BR_DEPTH_WRITE => Some (set_depth_write v c)
  | BR_DEPTH_TEST => Some (set_depth_test v c)
  | BR_PERSPECTIVE_CORRECTION => Some (set_persp_corr v c)
  | BR_TEXTURE => Some (set_texture v c)
  | BR_BLEND => Some (set_blend v c)
  | BR_CULL => Some (set_cull v c)
  | BR_CLIP => Some (set_clip v c)
  | BR_PERSPECTIVE_DIVISION => Some (set_persp_div v c)
  | BR_SCALE_Z => Some (set_scale_z v c)
  | BR_VERTEX_ARRAY => Some (set_vertex_array v c)
  | BR_COLOR_ARRAY => Some (set_color_array v c)
  | BR_NORMAL_ARRAY => Some (set_normal_array v c)
  | BR_TEXCOORD_ARRAY => Some (set_tcoord_array v c)
  | BR_VERTEX_TYPE => Some (set_sh_vtype v c)
  | BR_VERTEX_POSITION => Some (set_sh_vposition v c)
  | BR_VERTEX_COLOR => Some (set_sh_vcolor v c)
  | BR_VERTEX_NORMALS => Some (set_sh_vnormals v c)
  | BR_VERTEX_TEXTURE_COORDINATES => Some (set_sh_vtcoords v c)
  | BR_PRIMITIVE_COLOR => Some (set_sh_prim_color v c)
  | BR_TEXTURE_COLOR => Some (set_sh_tex_color v c)
  | BR_FRAGMENT_COLOR => Some (set_sh_frag_color v c)
  | BR_BARY_LINEAR => Some (set_sh_bary_linear v c)
  | BR_BARY_PERSPECTIVE => Some (set_sh_bary_persp v c)
  | BR_FRAGMENT_POSITION => Some (set_sh_fposition v c)
  | BR_FRAGMENT_DEPTH => Some (set_sh_fdepth v c)
  | _ => None
  end.

Definition brEnable (state : Z) (w : world) : option world :=
  with_context w (fun a c =>
    match set_toggle (u32 state) true c with
    | Some c' => Some (put_context a c' w)
    | None => Some w
    end).

Definition brDisable (state : Z) (w : world) : option world :=
  with_context w (fun a c =>
    match set_toggle (u32 state) false c with
    | Some c' => Some (put_context a c' w)
    | None => Some w
    end).

(** The pointer passed to [brBindShader] is cast to the callback type
    selected by [type]. *)
Inductive shader_ptr : Type :=
| shader_null
| shader_vertex (f : vshader_t)
| shader_fragment (f : fshader_t).

Definition brBindShader (type : Z) (shader : shader_ptr) (w : world)
    : option world :=
  with_context w (fun a c =>
    match u32 type, shader with
    | BR_VERTEX_SHADER, shader_null =>
        Some (put_context a (set_vshader None c) w)
    | BR_VERTEX_SHADER, shader_vertex f =>
        Some (put_context a (set_vshader (Some f) c) w)
    | BR_VERTEX_SHADER, shader_fragment _ => None
    | BR_FRAGMENT_SHADER, shader_null =>
        Some (put_context a (set_fshader None c) w)
    | BR_FRAGMENT_SHADER, shader_fragment f =>
        Some (put_context a (set_fshader (Some f) c) w)
    | BR_FRAGMENT_SHADER, shader_vertex _ => None
    | _, _ => Some w
    end).

Definition brSwapBuffers (w : world) : option world :=
  with_context w (fun a c =>
    if negb (double_buffer c) then Some w
    else
      let cb' := cb c in
      let db' := db c in
      let cb_type' := cb_type c in
      let db_type' := db_type c in
      let width := rb_width c in
      let height := rb_height c in
      let c := set_cb (cb2 c) c in
      let c := set_db (db2 c) c in
      let c := set_cb_type (cb2_type c) c in
      let c := set_db_type (db2_type c) c in
      let c := set_rb_width (rb2_width c) c in
      let c := set_rb_height (rb2_height c) c in
      let c := set_cb2 cb' c in
      let c := set_db2 db' c in
      let c := set_cb2_type cb_type' c in
      let c := set_db2_type db_type' c in
      let c := set_rb2_width width c in
      let c := set_rb2_height height c in
      Some (put_context a c w)).

(** The context after the twelve assignments of [brSwapBuffers]. *)
Definition swapped (c : brcontext) : brcontext :=
  set_rb2_height (rb_height c) (set_rb2_width (rb_width c)
    (set_db2_type (db_type c) (set_cb2_type (cb_type c)
      (set_db2 (db c) (set_cb2 (cb c)
        (set_rb_height (rb2_height c) (set_rb_width (rb2_width c)
          (set_db_type (db2_type c) (set_cb_type (cb2_type c)
            (set_db (db2 c) (set_cb (cb2 c) c))))))))))).

Definition brActiveTexture (unit : Z) (w : world) : option world :=
  let unit := u32 unit in
  with_context w (fun a c =>
    if unit <? BR_NUM_TEXTURE_UNITS
    then Some (put_context a (set_texture_unit unit c) w)
    else Some w).

(** [array[unit] = v]; undefined outside the array. *)
Definition array_set {A : Type} (l : list A) (i : Z) (v : A)
    : option (list A) :=
  if (0 <=? i) && (i <? Z.of_nat (length l))
  then Some (<[Z.to_nat i := v]> l) else None.

Definition brTexture (data : ptr) (format width height : Z)
    (compressed : bool) (w : world) : option world :=
  let format := u32 format in
  let width := u32 width in
  let height := u32 height in
  with_context w (fun a c =>
    let unit := texture_unit c in
    let clear :=
      negb (bool_decide (is_Some data)) || negb (_is_pixel_format format)
      || (width <? 1) || (height <? 1) in
    t ← array_set (textures c) unit (if clear then None else data);
    tw ← array_set (texture_widths c) unit (if clear then 0 else width);
    th ← array_set (texture_heights c) unit (if clear then 0 else height);
    tf ← array_set (texture_formats c) unit (if clear then 0 else format);
    tc ← array_set (texture_compressed_booleans c) unit
           (if clear then false else compressed);
    Some (put_context a
            (set_texture_compressed_booleans tc (set_texture_formats tf
               (set_texture_heights th (set_texture_widths tw
                  (set_textures t c))))) w)).

Definition brClearColor (r g b a : f32) (w : world) : option world :=
  with_context w (fun p c =>
    let r := if (r <? F32.zero)%f32 then F32.zero else r in
    let r := if (r >? F32.one)%f32 then F32.one else r in
    let g := if (g <? F32.zero)%f32 then F32.zero else g in
    let g := if (g >? F32.one)%f32 then F32.one else g in
    let b := if (b <? F32.zero)%f32 then F32.zero else b in
    let b := if (b >? F32.one)%f32 then F32.one else b in
    let a := if (a <? F32.zero)%f32 then F32.zero else a in
    let a := if (a >? F32.one)%f32 then F32.one else a in
    Some (put_context p (set_clear_color (Vec4 r g b a) c) w)).

Definition brClearDepth (depth : f32) (w : world) : option world :=
  with_context w (fun a c =>
    let depth := if (depth >? F32.one)%f32 then F32.one else depth in
    let depth := if (depth <? F32.zero)%f32 then F32.zero else depth in
    Some (put_context a (set_clear_depth depth c) w)).

(** The vertex-array pointer setters test their arguments only. *)

Definition brVertexPointer (count offset stride : Z) (w : world)
    : option world :=
  let count := u32 count in
  if (count >? 4) || (count <? 2) then Some w
  else with_context_unguarded w (fun a c =>
    Some (put_context a
            (set_vertex_stride stride (set_vertex_offset offset
               (set_vertex_count count c))) w)).

Definition brColorPointer (count offset stride : Z) (w : world)
    : option world :=
  let count := u32 count in
  if negb (count =? 3) && negb (count =? 4) then Some w
  else with_context_unguarded w (fun a c =>
    Some (put_context a
            (set_color_stride stride (set_color_offset offset
               (set_color_count count c))) w)).

Definition brNormalPointer (offset stride : Z) (w : world) : option world :=
  with_context_unguarded w (fun a c =>
    Some (put_context a
            (set_normal_stride stride (set_normal_offset offset c)) w)).

Definition brTexCoordPointer (offset stride : Z) (w : world)
    : option world :=
  with_context_unguarded w (fun a c =>
    Some (put_context a
            (set_tcoord_stride stride (set_tcoord_offset offset c)) w)).

(** ** Shader pass

    The scratch blob and its tag array are allocated once per primitive
    and hold the enabled attributes in the canonical order; the model
    builds the list of tagged values at each call. *)

Record _vertex_t : Type := {
  vt_type : Z;
  vt_position : brvec4;
  vt_tcoords : brvec2;
  vt_normals : brvec3;
  vt_color : brvec4
}.

Definition attr {A : Type} (enabled : bool) (tag : Z) (v : A)
    : list (Z * A) :=
  if enabled then [(tag, v)] else [].

Definition _vertex_pass (ctx : brcontext) (vertex : _vertex_t) : brvec4 :=
  match vshader ctx with
  | None => vt_position vertex
  | Some vs =>
      vs (attr (sh_vtype ctx) BR_VERTEX_TYPE (VType (vt_type vertex))
          ++ attr (sh_vposition ctx) BR_VERTEX_POSITION
               (VPosition (vt_position vertex))
          ++ attr (sh_vcolor ctx) BR_VERTEX_COLOR (VColor (vt_color vertex))
          ++ attr (sh_vnormals ctx) BR_VERTEX_NORMALS
               (VNormals (vt_normals vertex))
          ++ attr (sh_vtcoords ctx) BR_VERTEX_TEXTURE_COORDINATES
               (VTcoords (vt_tcoords vertex)))
  end.

(** [fr_depth] is never assigned by the rasterizers: the value passed for
    [BR_FRAGMENT_DEPTH] is indeterminate. *)
Record _fragment_t : Type := {
  fr_primitive_color : brvec4;
  fr_texture_color : brvec4;
  fr_color : brvec4;
  fr_linear_bary : brvec3;
  fr_bary : brvec3;
  fr_position : brvec2i
}.

Definition _fragment_pass (ctx : brcontext) (fs : fshader_t)
    (frag : _fragment_t) : brvec4 * bool :=
  fs (attr (sh_prim_color ctx) BR_PRIMITIVE_COLOR
        (FColor (fr_primitive_color frag))
      ++ attr (sh_tex_color ctx) BR_TEXTURE_COLOR
           (FColor (fr_texture_color frag))
      ++ attr (sh_frag_color ctx) BR_FRAGMENT_COLOR (FColor (fr_color frag))
      ++ attr (sh_bary_linear ctx) BR_BARY_LINEAR
           (FBary (fr_linear_bary frag))
      ++ attr (sh_bary_persp ctx) BR_BARY_PERSPECTIVE (FBary (fr_bary frag))
      ++ attr (sh_fposition ctx) BR_FRAGMENT_POSITION
           (FPosition (fr_position frag))
      ++ attr (sh_fdepth ctx) BR_FRAGMENT_DEPTH (FDepth None)).

(** [{ r*_INV_65536, g*_INV_65536, b*_INV_65536, a*_INV_65536 }] *)
Definition to_float_color (rgba : brvec4ui) : brvec4 :=
  Vec4 (F32.of_Z (vx rgba) * _INV_65536)%f32
       (F32.of_Z (vy rgba) * _INV_65536)%f32
       (F32.of_Z (vz rgba) * _INV_65536)%f32
       (F32.of_Z (vw rgba) * _INV_65536)%f32.

(** [rgba.x = color.x * 65536.0f; ...] into [uint32_t] channels. *)
Definition to_fixed_color (color : brvec4) : option brvec4ui :=
  r ← F32.to_u32 (vx color * F32.of_Z 65536)%f32;
  g ← F32.to_u32 (vy color * F32.of_Z 65536)%f32;
  b ← F32.to_u32 (vz color * F32.of_Z 65536)%f32;
  a ← F32.to_u32 (vw color * F32.of_Z 65536)%f32;
  Some (Vec4 r g b a).

(** The tail common to every rasterizer: plot the colour, then the depth.
    [depth] is [None] when its value is indeterminate. *)
Definition write_fragment (ctx : brcontext) (pixel_index : Z)
    (rgba : brvec4ui) (depth : option Z) (m : memory) : option memory :=
  let plot_color := bool_decide (is_Some (cb ctx)) in
  let plot_depth := depth_write ctx && bool_decide (is_Some (db ctx)) in
  m ← (if plot_color then _plot_pixel ctx pixel_index rgba (blend ctx) m
       else Some m);
  if plot_depth then
    d ← depth;
    if _is_valid_depth ctx d then _plot_depth ctx pixel_index d m else Some m
  else Some m.

(** The depth test: [Some true] when the fragment is rejected. *)
Definition depth_rejects (ctx : brcontext) (pixel_index : Z)
    (depth : option Z) (m : memory) : option bool :=
  let depth_test := depth_test ctx && bool_decide (is_Some (db ctx)) in
  if depth_test then
    dst ← _get_depth ctx pixel_index m;
    d ← depth;
    Some (negb (_is_valid_depth ctx d) || (d >? dst))
  else Some false.

(** ** Point rasterizer *)

Record _raster_point_t : Type := {
  rp_x : f32;
  rp_y : f32;
  rp_rgba : brvec4ui;
  rp_r : Z;
  rp_z : option Z;
  rp_w : f32
}.

Definition _raster_point_fragment (cur : option brcontext) (x y : Z)
    (point : _raster_point_t) (m : memory) : option memory :=
  match cur with
  | None => Some m
  | Some ctx =>
      if (x <? 0) || (rb_width ctx <=? u32 x)
         || (y <? 0) || (rb_height ctx <=? u32 y)
      then Some m
      else
        let pixel_index := u32 (y * rb_width ctx + x) in
        let depth := rp_z point in
        rejected ← depth_rejects ctx pixel_index depth m;
        if rejected : bool then Some m
        else
          let rgba := rp_rgba point in
          match fshader ctx with
          | Some fs =>
              let primary := to_float_color rgba in
              let secondary := Vec4 F32.zero F32.zero F32.zero F32.zero in
              let zero3 := Vec3 F32.zero F32.zero F32.zero in
              let '(color, discard) :=
                _fragment_pass ctx fs
                  {| fr_primitive_color := primary;
                     fr_texture_color := secondary;
                     fr_color := primary;
                     fr_linear_bary := zero3;
                     fr_bary := zero3;
                     fr_position := Vec2 x y |} in
              if discard : bool then Some m
              else
                rgba ← to_fixed_color color;
                write_fragment ctx pixel_index rgba depth m
          | None => write_fragment ctx pixel_index rgba depth m
          end
  end.

(** [for(int x = x0; n times; x += sx) _raster_point_fragment(x, y, ...)] *)
Fixpoint point_span (n : nat) (cur : option brcontext) (x sx y : Z)
    (point : _raster_point_t) (m : memory) : option memory :=
  match n with
  | O => Some m
  | S n' =>
      m ← _raster_point_fragment cur x y point m;
      point_span n' cur (s32 (x + sx)) sx y point m
  end.

(** The span [for(int x = x0; x != x1+sx; x += sx)] with
    [sx = (x0 < x1) ? 1 : -1]. *)
Definition point_row (cur : option brcontext) (x0 x1 y : Z)
    (point : _raster_point_t) (m : memory) : option memory :=
  let sx := if x0 <? x1 then 1 else -1 in
  point_span (Z.to_nat (u32 (sx * (s32 (x1 + sx) - x0)))) cur x0 sx y point m.

(** The midpoint-circle loop [while(x2 < y2)]; it runs at most [r] times. *)
Fixpoint _raster_point_loop (fuel : nat) (cur : option brcontext)
    (point_x point_y f dx dy x2 y2 : Z) (point : _raster_point_t)
    (m : memory) : option memory :=
  if x2 <? y2 then
    match fuel with
    | O => None
    | S fuel' =>
        let y2 := if f >=? 0 then s32 (y2 - 1) else y2 in
        let dy' := if f >=? 0 then s32 (dy + 2) else dy in
        let f := if f >=? 0 then s32 (f + dy') else f in
        let dy := dy' in
        let x2 := s32 (x2 + 1) in
        let dx := s32 (dx + 2) in
        let f := s32 (f + dx + 1) in
        let x0 := s32 (point_x - x2) in
        let x1 := s32 (point_x + x2) in
        m ← point_row cur x0 x1 (s32 (point_y + y2)) point m;
        m ← point_row cur x0 x1 (s32 (point_y - y2)) point m;
        let x0 := s32 (point_x - y2) in
        let x1 := s32 (point_x + y2) in
        m ← point_row cur x0 x1 (s32 (point_y + x2)) point m;
        m ← point_row cur x0 x1 (s32 (point_y - x2)) point m;
        _raster_point_loop fuel' cur point_x point_y f dx dy x2 y2 point m
    end
  else Some m.

Definition _raster_point (cur : option brcontext)
    (params : option _raster_point_t) (m : memory) : option memory :=
  match params, cur with
  | None, _ => Some m
  | _, None => Some m
  | Some point, Some ctx =>
      let r := rp_r point in
      if r <=? 0 then Some m
      else
        let f := s32 (1 - r) in
        let dx := 0 in
        let dy := s32 (-2 * r) in
        let x2 := 0 in
        let y2 := s32 r in
        point_x ← F32.to_s32 (rp_x point);
        point_y ← F32.to_s32 (rp_y point);
        m ← _raster_point_fragment cur point_x (s32 (point_y + r)) point m;
        m ← _raster_point_fragment cur point_x (s32 (point_y - r)) point m;
        (* for(int x = point_x - r; x <= point_x + r; x += 1): the bound
           is unsigned, so the comparison reads x as unsigned *)
        let xs := s32 (point_x - r) in
        let xe := u32 (point_x + r) in
        m ← (if u32 xs <=? xe then
               if xe =? 2 ^ 32 - 1 then None
               else point_span (Z.to_nat (xe - u32 xs + 1)) cur xs 1
                      point_y point m
             else Some m);
        _raster_point_loop (Z.to_nat r) cur point_x point_y f dx dy x2 y2
          point m
  end.

(** ** Fragment shading

    The texture unit as it is when a primitive is processed.  The fields
    other than [ts_complete] are assigned in the raster structures only
    for a complete unit, and are read only then. *)
Record texture_snapshot : Type := {
  ts_complete : bool;
  ts_texture : ptr;
  ts_width : Z;
  ts_height : Z;
  ts_format : Z;
  ts_compressed : bool
}.

(** The fragment shading operations and the writes that end the body of
    the loops over the fragments of a triangle and of a line: [tx], [ty]
    are the texel coordinates, [rgba] the interpolated colour and
    [linear_bary] the 16.16 barycentrics, a [brvec3ui] in a triangle and
    a [brvec3i] in a line. *)
Definition shade_fragment (ctx : brcontext) (tex : texture_snapshot)
    (tx ty : Z) (rgba : brvec4ui) (linear_bary : vec3 Z)
    (flt_bary : brvec3) (x y pixel_index : Z) (depth : option Z)
    (m : memory) : option memory :=
  let textured := texture ctx && ts_complete tex in
  if bool_decide (is_Some (fshader ctx)) || textured then
    let primary := to_float_color rgba in
    let secondary := Vec4 F32.zero F32.zero F32.zero F32.zero in
    secondary ← (if textured
                 then _get_texel (Some ctx) (s32 tx) (s32 ty) secondary
                        (ts_texture tex) (ts_format tex) (ts_width tex)
                        (ts_height tex) (ts_compressed tex) m
                 else Some secondary);
    match fshader ctx with
    | Some fs =>
        let '(color, discard) :=
          _fragment_pass ctx fs
            {| fr_primitive_color := primary;
               fr_texture_color := secondary;
               fr_color := if textured then secondary else primary;
               fr_linear_bary :=
                 Vec3 (F32.of_Z (v3x linear_bary) * _INV_65536)%f32
                      (F32.of_Z (v3y linear_bary) * _INV_65536)%f32
                      (F32.of_Z (v3z linear_bary) * _INV_65536)%f32;
               fr_bary := flt_bary;
               fr_position := Vec2 x y |} in
        if discard : bool then Some m
        else
          rgba ← to_fixed_color color;
          write_fragment ctx pixel_index rgba depth m
    | None =>
        rgba ← to_fixed_color secondary;
        write_fragment ctx pixel_index rgba depth m
    end
  else write_fragment ctx pixel_index rgba depth m.

(** ** Triangle rasterizer *)

(** A triangle ready to be rastered.  The texel coordinates are assigned
    only when the texture unit is complete and are read only then. *)
Record _raster_triangle_t : Type := {
  rt_x0 : f32; rt_x1 : f32; rt_x2 : f32;
  rt_y0 : f32; rt_y1 : f32; rt_y2 : f32;
  rt_orig_v0 : brvec2i; rt_orig_v1 : brvec2i; rt_orig_v2 : brvec2i;
  rt_bary0 : brvec3; rt_bary1 : brvec3; rt_bary2 : brvec3;
  rt_z0 : option Z; rt_z1 : option Z; rt_z2 : option Z;
  rt_w0 : f32; rt_w1 : f32; rt_w2 : f32;
  rt_rgba0 : brvec4ui; rt_rgba1 : brvec4ui; rt_rgba2 : brvec4ui;
  rt_tx0 : brvec2ui; rt_tx1 : brvec2ui; rt_tx2 : brvec2ui;
  rt_draw_top : bool;
  rt_tex : texture_snapshot
}.

(** Barycentrics (scaled by 65536) of the point [c], given relative to
    the first original vertex, in the triangle spanned by [a] and [b]. *)
Definition bary_at (a b c : brvec2i) (den : f32) : brvec3 :=
  let b_y := (F32.of_Z (s32 (v2x c * v2y b - v2x b * v2y c)) * den)%f32 in
  let b_z := (F32.of_Z (s32 (v2x a * v2y c - v2x c * v2y a)) * den)%f32 in
  Vec3 (F32.of_Z 65536 - b_y - b_z)%f32 b_y b_z.

Definition any_negative (bary : brvec3) : bool :=
  (v3x bary <? F32.zero)%f32 || (v3y bary <? F32.zero)%f32
  || (v3z bary <? F32.zero)%f32.

(** The loop that moves a scanline end by half a pixel at a time until
    its barycentrics are valid: [while(negative) { c.x = x - orig_v0.x;
    recompute; x += step; if(x is past the other end) abandon; }].  The
    outer [None] is an exhausted bound, the inner one the abandoned
    scanline. *)
Fixpoint fix_bary (fuel : nat) (a b : brvec2i) (den : f32)
    (orig_x cy step : Z) (past : Z -> bool) (x : Z) (bary : brvec3)
    : option (option brvec3) :=
  if any_negative bary then
    match fuel with
    | O => None
    | S fuel' =>
        let bary := bary_at a b (Vec2 (s32 (x - orig_x)) cy) den in
        let x := s32 (x + step) in
        if past x then Some None
        else fix_bary fuel' a b den orig_x cy step past x bary
    end
  else Some (Some bary).

(** Remap through the barycentrics carried by the vertices. *)
Definition remap_bary (params : _raster_triangle_t) (s : brvec3) : brvec3 :=
  let b_x := v3x s in
  let b_y := v3y s in
  let b_z := v3z s in
  Vec3 (b_x * v3x (rt_bary0 params) + b_y * v3x (rt_bary1 params)
        + b_z * v3x (rt_bary2 params))%f32
       (b_x * v3y (rt_bary0 params) + b_y * v3y (rt_bary1 params)
        + b_z * v3y (rt_bary2 params))%f32
       (b_x * v3z (rt_bary0 params) + b_y * v3z (rt_bary1 params)
        + b_z * v3z (rt_bary2 params))%f32.

(** Perspective correction of the barycentrics of one fragment:
    [float w = 65536.0f / ((int)(bary.x*inv_v0_w + bary.y*inv_v1_w +
    bary.z*inv_v2_w)); bary.x *= inv_v0_w * w; ...].  The quotient is a
    plain division. *)
Definition _raster_triangle_w (denominator : Z) : f32 :=
  (F32.of_Z 65536 / F32.of_Z denominator)%f32.

Definition _raster_triangle_persp (bary : brvec3ui)
    (inv_v0_w inv_v1_w inv_v2_w : f32) : option brvec3ui :=
  d ← F32.to_s32 (F32.of_Z (v3x bary) * inv_v0_w
                  + F32.of_Z (v3y bary) * inv_v1_w
                  + F32.of_Z (v3z bary) * inv_v2_w)%f32;
  let w := _raster_triangle_w d in
  b_x ← F32.to_u32 (F32.of_Z (v3x bary) * (inv_v0_w * w))%f32;
  b_y ← F32.to_u32 (F32.of_Z (v3y bary) * (inv_v1_w * w))%f32;
  b_z ← F32.to_u32 (F32.of_Z (v3z bary) * (inv_v2_w * w))%f32;
  Some (Vec3 b_x b_y b_z).

(** [((uint32_t)c0 * bary.x)>>16) + ...] on 16.16 values, in 32 bits. *)
Definition interp32 (c0 c1 c2 : Z) (bary : brvec3ui) : Z :=
  u32 (Z.shiftr (u32 (c0 * v3x bary)) 16
       + Z.shiftr (u32 (c1 * v3y bary)) 16
       + Z.shiftr (u32 (c2 * v3z bary)) 16).

(** The same sum in 64 bits, assigned to a [uint32_t]. *)
Definition interp64 (c0 c1 c2 : Z) (bary : brvec3ui) : Z :=
  u32 (u64 (Z.shiftr (u64 (c0 * v3x bary)) 16
            + Z.shiftr (u64 (c1 * v3y bary)) 16
            + Z.shiftr (u64 (c2 * v3z bary)) 16)).

(** One fragment of a scanline: the body of the loop over [x]. *)
Definition triangle_fragment (ctx : brcontext) (params : _raster_triangle_t)
    (inv_v0_w inv_v1_w inv_v2_w : f32) (x y pixel_index : Z)
    (linear_bary : brvec3ui) (m : memory) : option memory :=
  bary ← (if persp_corr ctx
          then _raster_triangle_persp linear_bary inv_v0_w inv_v1_w inv_v2_w
          else Some linear_bary);
  let flt_bary :=
    Vec3 (F32.of_Z (v3x bary) * _INV_65536)%f32
         (F32.of_Z (v3y bary) * _INV_65536)%f32
         (F32.of_Z (v3z bary) * _INV_65536)%f32 in
  let depth :=
    z0 ← rt_z0 params; z1 ← rt_z1 params; z2 ← rt_z2 params;
    F32.to_s64 (F32.of_Z z0 * v3x flt_bary + F32.of_Z z1 * v3y flt_bary
                + F32.of_Z z2 * v3z flt_bary)%f32 in
  rejected ← depth_rejects ctx pixel_index depth m;
  if rejected : bool then Some m
  else
    let r := interp32 (vx (rt_rgba0 params)) (vx (rt_rgba1 params))
               (vx (rt_rgba2 params)) bary in
    let g := interp32 (vy (rt_rgba0 params)) (vy (rt_rgba1 params))
               (vy (rt_rgba2 params)) bary in
    let b := interp32 (vz (rt_rgba0 params)) (vz (rt_rgba1 params))
               (vz (rt_rgba2 params)) bary in
    let a := interp32 (vw (rt_rgba0 params)) (vw (rt_rgba1 params))
               (vw (rt_rgba2 params)) bary in
    let tx := if ts_complete (rt_tex params)
              then interp64 (v2x (rt_tx0 params)) (v2x (rt_tx1 params))
                     (v2x (rt_tx2 params)) bary
              else 0 in
    let ty := if ts_complete (rt_tex params)
              then interp64 (v2y (rt_tx0 params)) (v2y (rt_tx1 params))
                     (v2y (rt_tx2 params)) bary
              else 0 in
    (* actual texel coordinates *)
    let tx := Z.shiftr tx 16 in
    let ty := Z.shiftr ty 16 in
    shade_fragment ctx (rt_tex params) tx ty (Vec4 r g b a) linear_bary
      flt_bary x y pixel_index depth m.

(** [for(int x = sx1; x <= sx2; x += 1)] with its two [break]s. *)
Fixpoint scanline_pixels (n : nat) (ctx : brcontext)
    (params : _raster_triangle_t) (inv_v0_w inv_v1_w inv_v2_w : f32)
    (cx2 y x pixel_index : Z) (inc linear_bary : brvec3ui) (m : memory)
    : option memory :=
  match n with
  | O => Some m
  | S n' =>
      if rb_width ctx <=? u32 x then Some m
      else if s32 (x * 256) >=? cx2 then Some m
      else
        m ← triangle_fragment ctx params inv_v0_w inv_v1_w inv_v2_w
              x y pixel_index linear_bary m;
        scanline_pixels n' ctx params inv_v0_w inv_v1_w inv_v2_w cx2 y
          (s32 (x + 1)) (u32 (pixel_index + 1)) inc
          (Vec3 (u32 (v3x linear_bary + v3x inc))
                (u32 (v3y linear_bary + v3y inc))
                (u32 (v3z linear_bary + v3z inc))) m
  end.

(** One scanline at row [y] between the edge positions [curfx1] and
    [curfx2] (24.8): the body shared by the two loops over [y]. *)
Definition scanline (ctx : brcontext) (params : _raster_triangle_t)
    (a b : brvec2i) (den inv_v0_w inv_v1_w inv_v2_w : f32)
    (curfx1 curfx2 y : Z) (m : memory) : option memory :=
  let cx1 := if curfx1 >? curfx2 then curfx2 else curfx1 in
  let cx2 := if curfx1 >? curfx2 then curfx1 else curfx2 in
  let sx1 := Z.shiftr (s32 (cx1 - 128)) 8 in
  let sx2 := Z.shiftr (s32 (cx2 + 128)) 8 in
  if sx1 >? sx2 then Some m
  else
    let sx1 := if sx1 <? 0 then 0 else sx1 in
    if rb_width ctx <=? u32 sx1 then Some m
    else
      let slength := s32 (sx2 - sx1 + 1) in
      let orig_x := v2x (rt_orig_v0 params) in
      let cy := s32 (s32 (y * 256) - v2y (rt_orig_v0 params)) in
      let c1x := if negb (sx1 =? sx2)
                 then s32 (s32 (sx1 * 256) + 256 - orig_x)
                 else s32 (cx1 - orig_x) in
      s1 ← fix_bary (Z.to_nat (Z.max 0 ((cx2 - (sx1 * 256 + 384)) / 128) + 2))
             a b den orig_x cy 128 (fun x => x >? cx2)
             (s32 (s32 (sx1 * 256) + 384)) (bary_at a b (Vec2 c1x cy) den);
      match s1 with
      | None => Some m
      | Some bary_s1 =>
          let bary_s1 := remap_bary params bary_s1 in
          let c2x := if negb (sx1 =? sx2)
                     then s32 (s32 (sx2 * 256) - 256 - orig_x)
                     else s32 (cx2 - orig_x) in
          s2 ← fix_bary
                 (Z.to_nat (Z.max 0 ((sx2 * 256 - 384 - cx1) / 128) + 2))
                 a b den orig_x cy (-128) (fun x => x <? cx1)
                 (s32 (s32 (sx2 * 256) - 384)) (bary_at a b (Vec2 c2x cy) den);
          match s2 with
          | None => Some m
          | Some bary_s2 =>
              let bary_s2 := remap_bary params bary_s2 in
              inc_bx ← F32.to_s32
                         ((v3x bary_s2 - v3x bary_s1) / F32.of_Z slength)%f32;
              inc_by ← F32.to_s32
                         ((v3y bary_s2 - v3y bary_s1) / F32.of_Z slength)%f32;
              inc_bz ← F32.to_s32
                         ((v3z bary_s2 - v3z bary_s1) / F32.of_Z slength)%f32;
              let pixel_index := u32 (y * rb_width ctx + sx1) in
              lx ← F32.to_u32 (v3x bary_s1);
              ly ← F32.to_u32 (v3y bary_s1);
              lz ← F32.to_u32 (v3z bary_s1);
              scanline_pixels (Z.to_nat (sx2 - sx1 + 1)) ctx params
                inv_v0_w inv_v1_w inv_v2_w cx2 y sx1 pixel_index
                (Vec3 inc_bx inc_by inc_bz) (Vec3 lx ly lz) m
          end
      end.

(** The loop of the flat-bottomed half: [for(int y = (y0>>8)+1;
    y <= y1_int; y += 1)], [n] rows from [y] on. *)
Fixpoint flat_bottom_rows (n : nat) (ctx : brcontext)
    (params : _raster_triangle_t) (a b : brvec2i)
    (den inv_v0_w inv_v1_w inv_v2_w : f32)
    (invslope1 invslope2 curfx1 curfx2 y : Z) (m : memory) : option memory :=
  match n with
  | O => Some m
  | S n' =>
      if y <? 0 then
        flat_bottom_rows n' ctx params a b den inv_v0_w inv_v1_w inv_v2_w
          invslope1 invslope2 (s32 (curfx1 + invslope1))
          (s32 (curfx2 + invslope2)) (s32 (y + 1)) m
      else if rb_height ctx <=? u32 y then Some m
      else
        m ← scanline ctx params a b den inv_v0_w inv_v1_w inv_v2_w
              curfx1 curfx2 y m;
        flat_bottom_rows n' ctx params a b den inv_v0_w inv_v1_w inv_v2_w
          invslope1 invslope2 (s32 (curfx1 + invslope1))
          (s32 (curfx2 + invslope2)) (s32 (y + 1)) m
  end.

(** The loop of the flat-topped half: [for(int y = (y2>>8); y > y0_int;
    y -= 1)]. *)
Fixpoint flat_top_rows (n : nat) (ctx : brcontext)
    (params : _raster_triangle_t) (a b : brvec2i)
    (den inv_v0_w inv_v1_w inv_v2_w : f32)
    (invslope1 invslope2 curfx1 curfx2 y : Z) (m : memory) : option memory :=
  match n with
  | O => Some m
  | S n' =>
      if y <? 0 then Some m
      else if rb_height ctx <=? u32 y then
        flat_top_rows n' ctx params a b den inv_v0_w inv_v1_w inv_v2_w
          invslope1 invslope2 (s32 (curfx1 - invslope1))
          (s32 (curfx2 - invslope2)) (s32 (y - 1)) m
      else
        m ← scanline ctx params a b den inv_v0_w inv_v1_w inv_v2_w
              curfx1 curfx2 y m;
        flat_top_rows n' ctx params a b den inv_v0_w inv_v1_w inv_v2_w
          invslope1 invslope2 (s32 (curfx1 - invslope1))
          (s32 (curfx2 - invslope2)) (s32 (y - 1)) m
  end.

Definition _raster_triangle (cur : option brcontext)
    (params : option _raster_triangle_t) (m : memory) : option memory :=
  match params, cur with
  | None, _ => Some m
  | _, None => Some m
  | Some params, Some ctx =>
      (* 24.8 fixed point *)
      x0 ← F32.to_s32 (rt_x0 params * F32.of_Z 256)%f32;
      x1 ← F32.to_s32 (rt_x1 params * F32.of_Z 256)%f32;
      x2 ← F32.to_s32 (rt_x2 params * F32.of_Z 256)%f32;
      y0 ← F32.to_s32 (rt_y0 params * F32.of_Z 256)%f32;
      y1 ← F32.to_s32 (rt_y1 params * F32.of_Z 256)%f32;
      y2 ← F32.to_s32 (rt_y2 params * F32.of_Z 256)%f32;
      let orig_v0 := rt_orig_v0 params in
      let orig_v1 := rt_orig_v1 params in
      let orig_v2 := rt_orig_v2 params in
      let a := Vec2 (s32 (Z.shiftr (v2x orig_v1) 8 - Z.shiftr (v2x orig_v0) 8))
                    (s32 (Z.shiftr (v2y orig_v1) 8 - Z.shiftr (v2y orig_v0) 8)) in
      let b := Vec2 (s32 (Z.shiftr (v2x orig_v2) 8 - Z.shiftr (v2x orig_v0) 8))
                    (s32 (Z.shiftr (v2y orig_v2) 8 - Z.shiftr (v2y orig_v0) 8)) in
      let den := _fdiv (F32.of_Z 256)
                   (F32.of_Z (s32 (v2x a * v2y b - v2x b * v2y a))) in
      let inv_v0_w := if persp_corr ctx
                      then _fdiv F32.one (F32.abs (rt_w0 params))
                      else F32.zero in
      let inv_v1_w := if persp_corr ctx
                      then _fdiv F32.one (F32.abs (rt_w1 params))
                      else F32.zero in
      let inv_v2_w := if persp_corr ctx
                      then _fdiv F32.one (F32.abs (rt_w2 params))
                      else F32.zero in
      (* flat bottom *)
      m ← (if (y1 =? y2) && negb (x1 =? x2) then
             let invslope1 :=
               _idiv (s32 (v2x orig_v1 - v2x orig_v0))
                     (Z.shiftr (s32 (v2y orig_v1 - v2y orig_v0)) 8) in
             let invslope2 :=
               _idiv (s32 (v2x orig_v2 - v2x orig_v0))
                     (Z.shiftr (s32 (v2y orig_v2 - v2y orig_v0)) 8) in
             let y1_int := Z.shiftr y1 8 in
             let ys := s32 (Z.shiftr y0 8 + 1) in
             flat_bottom_rows (Z.to_nat (y1_int - ys + 1)) ctx params a b
               den inv_v0_w inv_v1_w inv_v2_w invslope1 invslope2 x0 x0 ys m
           else Some m);
      (* flat topped *)
      if (y0 =? y1) && negb (x0 =? x1) then
        let invslope1 :=
          _idiv (s32 (v2x orig_v2 - v2x orig_v0))
                (Z.shiftr (s32 (v2y orig_v2 - v2y orig_v0)) 8) in
        let invslope2 :=
          _idiv (s32 (v2x orig_v2 - v2x orig_v1))
                (Z.shiftr (s32 (v2y orig_v2 - v2y orig_v1)) 8) in
        let y0_int := Z.shiftr y0 8 in
        let y0_int := if rt_draw_top params then s32 (y0_int - 1)
                      else y0_int in
        let ys := Z.shiftr y2 8 in
        flat_top_rows (Z.to_nat (ys - y0_int)) ctx params a b den
          inv_v0_w inv_v1_w inv_v2_w invslope1 invslope2 x2 x2 ys m
      else Some m
  end.

Definition rebuild_rt (t : _raster_triangle_t) : _raster_triangle_t :=
  Build__raster_triangle_t (rt_x0 t) (rt_x1 t) (rt_x2 t) (rt_y0 t) (rt_y1 t)
    (rt_y2 t) (rt_orig_v0 t) (rt_orig_v1 t) (rt_orig_v2 t) (rt_bary0 t)
    (rt_bary1 t) (rt_bary2 t) (rt_z0 t) (rt_z1 t) (rt_z2 t) (rt_w0 t)
    (rt_w1 t) (rt_w2 t) (rt_rgba0 t) (rt_rgba1 t) (rt_rgba2 t) (rt_tx0 t)
    (rt_tx1 t) (rt_tx2 t) (rt_draw_top t) (rt_tex t).

Ltac assign_rt f :=
  let e := eval cbv delta [rebuild_rt] in rebuild_rt in
  let e := eval pattern f in e in
  match e with
  | ?F _ => let r := eval cbv beta in (fun v t => F (fun _ => v) t) in exact r
  end.

Definition set_rt_x0 : f32 -> _raster_triangle_t -> _raster_triangle_t :=
  ltac:(assign_rt rt_x0).
Definition set_rt_x1 : f32 -> _raster_triangle_t -> _raster_triangle_t :=
  ltac:(assign_rt rt_x1).
Definition set_rt_x2 : f32 -> _raster_triangle_t -> _raster_triangle_t :=
  ltac:(assign_rt rt_x2).
Definition set_rt_y0 : f32 -> _raster_triangle_t -> _raster_triangle_t :=
  ltac:(assign_rt rt_y0).
Definition set_rt_y1 : f32 -> _raster_triangle_t -> _raster_triangle_t :=
  ltac:(assign_rt rt_y1).
Definition set_rt_y2 : f32 -> _raster_triangle_t -> _raster_triangle_t :=
  ltac:(assign_rt rt_y2).
Definition set_rt_bary0 : brvec3 -> _raster_triangle_t -> _raster_triangle_t :=
  ltac:(assign_rt rt_bary0).
Definition set_rt_bary1 : brvec3 -> _raster_triangle_t -> _raster_triangle_t :=
  ltac:(assign_rt rt_bary1).
Definition set_rt_bary2 : brvec3 -> _raster_triangle_t -> _raster_triangle_t :=
  ltac:(assign_rt rt_bary2).
Definition set_rt_orig_v0 : brvec2i -> _raster_triangle_t -> _raster_triangle_t :=
  ltac:(assign_rt rt_orig_v0).
Definition set_rt_orig_v1 : brvec2i -> _raster_triangle_t -> _raster_triangle_t :=
  ltac:(assign_rt rt_orig_v1).
Definition set_rt_orig_v2 : brvec2i -> _raster_triangle_t -> _raster_triangle_t :=
  ltac:(assign_rt rt_orig_v2).
Definition set_rt_draw_top : bool -> _raster_triangle_t -> _raster_triangle_t :=
  ltac:(assign_rt rt_draw_top).

(** Exchange of two vertices: raster position, barycentric override and
    original position (depth, w, colour and texel coordinates stay). *)
Definition swap_v1_v2 (t : _raster_triangle_t) : _raster_triangle_t :=
  set_rt_orig_v2 (rt_orig_v1 t) (set_rt_orig_v1 (rt_orig_v2 t)
    (set_rt_bary2 (rt_bary1 t) (set_rt_bary1 (rt_bary2 t)
      (set_rt_y2 (rt_y1 t) (set_rt_y1 (rt_y2 t)
        (set_rt_x2 (rt_x1 t) (set_rt_x1 (rt_x2 t) t))))))).

Definition swap_v0_v1 (t : _raster_triangle_t) : _raster_triangle_t :=
  set_rt_orig_v1 (rt_orig_v0 t) (set_rt_orig_v0 (rt_orig_v1 t)
    (set_rt_bary1 (rt_bary0 t) (set_rt_bary0 (rt_bary1 t)
      (set_rt_y1 (rt_y0 t) (set_rt_y0 (rt_y1 t)
        (set_rt_x1 (rt_x0 t) (set_rt_x0 (rt_x1 t) t))))))).

Definition _split_raster_triangle (cur : option brcontext)
    (triangle : _raster_triangle_t) (m : memory) : option memory :=
  (* sort vertices v0.y <= v1.y <= v2.y *)
  let triangle := if (rt_y2 triangle <? rt_y1 triangle)%f32
                  then swap_v1_v2 triangle else triangle in
  let triangle := if (rt_y1 triangle <? rt_y0 triangle)%f32
                  then swap_v0_v1 triangle else triangle in
  let triangle := if (rt_y2 triangle <? rt_y1 triangle)%f32
                  then swap_v1_v2 triangle else triangle in
  let triangle := set_rt_draw_top false triangle in
  if (rt_y1 triangle =? rt_y2 triangle)%f32 then
    _raster_triangle cur (Some triangle) m
  else if (rt_y0 triangle =? rt_y1 triangle)%f32 then
    _raster_triangle cur (Some (set_rt_draw_top true triangle)) m
  else
    let v_x := (rt_x0 triangle
                + ((rt_y1 triangle - rt_y0 triangle)
                   / (rt_y2 triangle - rt_y0 triangle))
                  * (rt_x2 triangle - rt_x0 triangle))%f32 in
    let v_y := rt_y1 triangle in
    let second_half := triangle in
    let triangle := set_rt_y2 v_y (set_rt_x2 v_x triangle) in
    let second_half :=
      set_rt_y1 v_y (set_rt_x1 v_x
        (set_rt_y0 (rt_y1 second_half)
           (set_rt_x0 (rt_x1 second_half) second_half))) in
    m ← _raster_triangle cur (Some triangle) m;
    _raster_triangle cur (Some second_half) m.

(** ** Primitive preprocessor *)

Definition in_frustum (v : brvec4) : bool :=
  (- vw v <=? vx v)%f32 && (vx v <=? vw v)%f32
  && (- vw v <=? vy v)%f32 && (vy v <=? vw v)%f32
  && (- vw v <=? vz v)%f32 && (vz v <=? vw v)%f32.

(** [if(persp_div && v.w != 0.0f && v.w != 1.0f) { float inv_w =
    _fdiv(1.0f, v.w); v.x *= inv_w; v.y *= inv_w; v.z *= inv_w; }] *)
Definition persp_divide (ctx : brcontext) (v : brvec4) : brvec4 :=
  if persp_div ctx && F32.neqb (vw v) F32.zero && F32.neqb (vw v) F32.one
  then
    let inv_w := _fdiv F32.one (vw v) in
    Vec4 (vx v * inv_w)%f32 (vy v * inv_w)%f32 (vz v * inv_w)%f32 (vw v)
  else v.

(** [if(scale_z) v.z *= 0.5f + 0.5f;] *)
Definition rescale_z (ctx : brcontext) (v : brvec4) : brvec4 :=
  if scale_z ctx
  then Vec4 (vx v) (vy v) (vz v * (F32.half + F32.half))%f32 (vw v)
  else v.

(** A triangle before rasterization.  [tr_parent] is the parent of a
    clipped triangle, as the parent is when the child is processed;
    [tr_parent_orig_v0..2] are assigned in a parent when it is clipped. *)
#[local] Unset Elimination Schemes.
Inductive _triangle_t : Type := Build__triangle_t {
  tr_v0 : brvec4; tr_v1 : brvec4; tr_v2 : brvec4;
  tr_rgba0 : brvec4; tr_rgba1 : brvec4; tr_rgba2 : brvec4;
  tr_tcoords0 : brvec2; tr_tcoords1 : brvec2; tr_tcoords2 : brvec2;
  tr_parent : option _triangle_t;
  tr_parent_orig_v0 : brvec2i;
  tr_parent_orig_v1 : brvec2i;
  tr_parent_orig_v2 : brvec2i
}.
#[local] Set Elimination Schemes.

Definition with_vertices (v0 v1 v2 : brvec4) (t : _triangle_t)
    : _triangle_t :=
  Build__triangle_t v0 v1 v2 (tr_rgba0 t) (tr_rgba1 t) (tr_rgba2 t)
    (tr_tcoords0 t) (tr_tcoords1 t) (tr_tcoords2 t) (tr_parent t)
    (tr_parent_orig_v0 t) (tr_parent_orig_v1 t) (tr_parent_orig_v2 t).

Definition with_parent (p : option _triangle_t) (t : _triangle_t)
    : _triangle_t :=
  Build__triangle_t (tr_v0 t) (tr_v1 t) (tr_v2 t) (tr_rgba0 t) (tr_rgba1 t)
    (tr_rgba2 t) (tr_tcoords0 t) (tr_tcoords1 t) (tr_tcoords2 t) p
    (tr_parent_orig_v0 t) (tr_parent_orig_v1 t) (tr_parent_orig_v2 t).

Definition with_parent_orig (o0 o1 o2 : brvec2i) (t : _triangle_t)
    : _triangle_t :=
  Build__triangle_t (tr_v0 t) (tr_v1 t) (tr_v2 t) (tr_rgba0 t) (tr_rgba1 t)
    (tr_rgba2 t) (tr_tcoords0 t) (tr_tcoords1 t) (tr_tcoords2 t)
    (tr_parent t) o0 o1 o2.

(** The vertices of a triangle after the perspective division and the Z
    rescale, which are done in place. *)
Definition _process_triangle_vertices (ctx : brcontext)
    (triangle : _triangle_t) : _triangle_t :=
  with_vertices
    (rescale_z ctx (persp_divide ctx (tr_v0 triangle)))
    (rescale_z ctx (persp_divide ctx (tr_v1 triangle)))
    (rescale_z ctx (persp_divide ctx (tr_v2 triangle)))
    triangle.

(** Viewport mapping. *)
Definition half_width (ctx : brcontext) : f32 :=
  (F32.of_Z (rb_width ctx) * F32.half)%f32.
Definition half_height (ctx : brcontext) : f32 :=
  (F32.of_Z (rb_height ctx) * F32.half)%f32.
Definition raster_x (ctx : brcontext) (v : brvec4) : f32 :=
  (half_width ctx + vx v * half_width ctx)%f32.
Definition raster_y (ctx : brcontext) (v : brvec4) : f32 :=
  (half_height ctx + (- vy v) * half_height ctx)%f32.

(** [{ x * 256.0f, y * 256.0f }] as a [brvec2i]. *)
Definition to_24_8 (x y : f32) : option brvec2i :=
  ix ← F32.to_s32 (x * F32.of_Z 256)%f32;
  iy ← F32.to_s32 (y * F32.of_Z 256)%f32;
  Some (Vec2 ix iy).

(** [array[i]]; undefined outside the array. *)
Definition array_get {A : Type} (l : list A) (i : Z) : option A :=
  if 0 <=? i then l !! Z.to_nat i else None.

(** The snapshot of the active texture unit. *)
Definition active_texture (ctx : brcontext) : option texture_snapshot :=
  let tunit := texture_unit ctx in
  t ← array_get (textures ctx) tunit;
  tw ← array_get (texture_widths ctx) tunit;
  th ← array_get (texture_heights ctx) tunit;
  tf ← array_get (texture_formats ctx) tunit;
  tc ← array_get (texture_compressed_booleans ctx) tunit;
  Some {| ts_complete := bool_decide (is_Some t) && (tw >? 0) && (th >? 0)
                         && _is_pixel_format tf;
          ts_texture := t; ts_width := tw; ts_height := th;
          ts_format := tf; ts_compressed := tc |}.

(** [tx.x = u * (texture_width - 1) * 65536;
     tx.y = (1.0f - v) * (texture_height - 1) * 65536;] *)
Definition texel_coords (ts : texture_snapshot) (tcoords : brvec2)
    : option brvec2ui :=
  tx ← F32.to_u32 (v2x tcoords * F32.of_Z (u32 (ts_width ts - 1))
                   * F32.of_Z 65536)%f32;
  ty ← F32.to_u32 ((F32.one - v2y tcoords)
                   * F32.of_Z (u32 (ts_height ts - 1))
                   * F32.of_Z 65536)%f32;
  Some (Vec2 tx ty).

(** The white disk of radius 2 that [_process_triangle] and
    [_process_line] raster at every vertex before the primitive. *)
Definition vertex_marker (x y : f32) : _raster_point_t :=
  {| rp_x := x; rp_y := y;
     rp_rgba := Vec4 65536 65536 65536 65536;
     rp_r := 2; rp_z := Some 0; rp_w := F32.one |}.

(** The part of [_process_triangle] after culling and clipping. *)
Definition _process_triangle_raster (ctx : brcontext)
    (triangle : _triangle_t) (m : memory) : option memory :=
  let cur := Some ctx in
  let triangle := _process_triangle_vertices ctx triangle in
  ts ← active_texture ctx;
  tx ← (if ts_complete ts then
          t0 ← texel_coords ts (tr_tcoords0 triangle);
          t1 ← texel_coords ts (tr_tcoords1 triangle);
          t2 ← texel_coords ts (tr_tcoords2 triangle);
          Some (t0, t1, t2)
        else Some (Vec2 0 0, Vec2 0 0, Vec2 0 0));
  let '(tx0, tx1, tx2) := tx in
  let x0 := raster_x ctx (tr_v0 triangle) in
  let y0 := raster_y ctx (tr_v0 triangle) in
  let x1 := raster_x ctx (tr_v1 triangle) in
  let y1 := raster_y ctx (tr_v1 triangle) in
  let x2 := raster_x ctx (tr_v2 triangle) in
  let y2 := raster_y ctx (tr_v2 triangle) in
  m ← _raster_point cur (Some (vertex_marker x0 y0)) m;
  m ← _raster_point cur (Some (vertex_marker x1 y1)) m;
  m ← _raster_point cur (Some (vertex_marker x2 y2)) m;
  orig ← match tr_parent triangle with
         | Some parent =>
             Some (tr_parent_orig_v0 parent, tr_parent_orig_v1 parent,
                   tr_parent_orig_v2 parent)
         | None =>
             o0 ← to_24_8 x0 y0; o1 ← to_24_8 x1 y1; o2 ← to_24_8 x2 y2;
             Some (o0, o1, o2)
         end;
  let '(orig_v0, orig_v1, orig_v2) := orig in
  (* a child takes z and w from its parent *)
  let source := match tr_parent triangle with
                | Some parent => parent
                | None => triangle
                end in
  rgba0 ← to_fixed_color (tr_rgba0 triangle);
  rgba1 ← to_fixed_color (tr_rgba1 triangle);
  rgba2 ← to_fixed_color (tr_rgba2 triangle);
  _split_raster_triangle cur
    {| rt_x0 := x0; rt_x1 := x1; rt_x2 := x2;
       rt_y0 := y0; rt_y1 := y1; rt_y2 := y2;
       rt_orig_v0 := orig_v0; rt_orig_v1 := orig_v1; rt_orig_v2 := orig_v2;
       rt_bary0 := Vec3 F32.one F32.zero F32.zero;
       rt_bary1 := Vec3 F32.zero F32.one F32.zero;
       rt_bary2 := Vec3 F32.zero F32.zero F32.one;
       rt_z0 := _convert_depth ctx (vz (tr_v0 source));
       rt_z1 := _convert_depth ctx (vz (tr_v1 source));
       rt_z2 := _convert_depth ctx (vz (tr_v2 source));
       rt_w0 := vw (tr_v0 source);
       rt_w1 := vw (tr_v1 source);
       rt_w2 := vw (tr_v2 source);
       rt_rgba0 := rgba0; rt_rgba1 := rgba1; rt_rgba2 := rgba2;
       rt_tx0 := tx0; rt_tx1 := tx1; rt_tx2 := tx2;
       rt_draw_top := false;
       rt_tex := ts |} m.

(** [cw] of the cull test: the sign of the z component of the cross
    product of the two edges from [v0], whose own z components are 0. *)
Definition winding_is_cw (triangle : _triangle_t) : bool :=
  let ax := (vx (tr_v1 triangle) - vx (tr_v0 triangle))%f32 in
  let ay := (vy (tr_v1 triangle) - vy (tr_v0 triangle))%f32 in
  let b_x := (vx (tr_v2 triangle) - vx (tr_v0 triangle))%f32 in
  let b_y := (vy (tr_v2 triangle) - vy (tr_v0 triangle))%f32 in
  ((ax * b_y - ay * b_x) >? F32.zero)%f32.

(** ** Line rasterizer *)

Record _raster_line_t : Type := {
  rl_x0 : f32; rl_x1 : f32;
  rl_y0 : f32; rl_y1 : f32;
  rl_bary0 : brvec3; rl_bary1 : brvec3;
  rl_z0 : option Z; rl_z1 : option Z;
  rl_w0 : f32; rl_w1 : f32;
  rl_rgba0 : brvec4ui; rl_rgba1 : brvec4ui;
  rl_tx0 : brvec2ui; rl_tx1 : brvec2ui;
  rl_tex : texture_snapshot
}.

(** Perspective correction of the barycentrics of one fragment of a line:
    [float w = _fdiv(65536.0f, (bary.x*inv_v0_w + bary.y*inv_v1_w));
    bary.x *= inv_v0_w; bary.y *= inv_v1_w; bary.x *= w; bary.y *= w;]
    on [int] barycentrics. *)
Definition _raster_line_w (bary : brvec3i) (inv_v0_w inv_v1_w : f32) : f32 :=
  _fdiv (F32.of_Z 65536)
    (F32.of_Z (v3x bary) * inv_v0_w + F32.of_Z (v3y bary) * inv_v1_w)%f32.

Definition _raster_line_persp (bary : brvec3i) (inv_v0_w inv_v1_w : f32)
    : option brvec3i :=
  let w := _raster_line_w bary inv_v0_w inv_v1_w in
  b_x ← F32.to_s32 (F32.of_Z (v3x bary) * inv_v0_w)%f32;
  b_y ← F32.to_s32 (F32.of_Z (v3y bary) * inv_v1_w)%f32;
  b_x ← F32.to_s32 (F32.of_Z b_x * w)%f32;
  b_y ← F32.to_s32 (F32.of_Z b_y * w)%f32;
  Some (Vec3 b_x b_y (v3z bary)).

(** The two-term sums of a line, in 32 and in 64 bits. *)
Definition interp32_line (c0 c1 : Z) (bary : brvec3i) : Z :=
  u32 (Z.shiftr (u32 (c0 * v3x bary)) 16 + Z.shiftr (u32 (c1 * v3y bary)) 16).

Definition interp64_line (c0 c1 : Z) (bary : brvec3i) : Z :=
  u32 (u64 (Z.shiftr (u64 (c0 * v3x bary)) 16
            + Z.shiftr (u64 (c1 * v3y bary)) 16)).

(** One fragment of a line, [p] pixels from its start. *)
Definition line_fragment (ctx : brcontext) (params : _raster_line_t)
    (length inv_length inv_v0_w inv_v1_w : f32) (p x y pixel_index : Z)
    (m : memory) : option memory :=
  let b_x := ((length - F32.of_Z p) * inv_length)%f32 in
  let b_y := (F32.one - b_x)%f32 in
  let bc_x := (b_x * v3x (rl_bary0 params) + b_y * v3x (rl_bary1 params))%f32 in
  let bc_y := (b_x * v3y (rl_bary0 params) + b_y * v3y (rl_bary1 params))%f32 in
  (* bary to 16.16 fixed point *)
  lx ← F32.to_s32 (bc_x * F32.of_Z 65536)%f32;
  ly ← F32.to_s32 (bc_y * F32.of_Z 65536)%f32;
  lz ← F32.to_s32 (F32.zero * F32.of_Z 65536)%f32;
  let linear_bary := Vec3 lx ly lz in
  bary ← (if persp_corr ctx
          then _raster_line_persp linear_bary inv_v0_w inv_v1_w
          else Some linear_bary);
  let flt_bary :=
    Vec3 (F32.of_Z (v3x bary) * _INV_65536)%f32
         (F32.of_Z (v3y bary) * _INV_65536)%f32 F32.zero in
  let depth :=
    z0 ← rl_z0 params; z1 ← rl_z1 params;
    F32.to_s64 (F32.of_Z z0 * v3x flt_bary + F32.of_Z z1 * v3y flt_bary)%f32 in
  rejected ← depth_rejects ctx pixel_index depth m;
  if rejected : bool then Some m
  else
    let r := interp32_line (vx (rl_rgba0 params)) (vx (rl_rgba1 params)) bary in
    let g := interp32_line (vy (rl_rgba0 params)) (vy (rl_rgba1 params)) bary in
    let b := interp32_line (vz (rl_rgba0 params)) (vz (rl_rgba1 params)) bary in
    let a := interp32_line (vw (rl_rgba0 params)) (vw (rl_rgba1 params)) bary in
    let tx := if ts_complete (rl_tex params)
              then interp64_line (v2x (rl_tx0 params)) (v2x (rl_tx1 params))
                     bary
              else 0 in
    let ty := if ts_complete (rl_tex params)
              then interp64_line (v2y (rl_tx0 params)) (v2y (rl_tx1 params))
                     bary
              else 0 in
    let tx := Z.shiftr tx 16 in
    let ty := Z.shiftr ty 16 in
    shade_fragment ctx (rl_tex params) tx ty (Vec4 r g b a) linear_bary
      flt_bary x y pixel_index depth m.

(** The loop [for(;;)] of [_raster_line]: it ends when the distance
    walked from the start reaches the length of the line.  [None] when
    the bound [fuel] on the number of steps is exhausted. *)
Fixpoint line_walk (fuel : nat) (ctx : brcontext) (params : _raster_line_t)
    (length inv_length inv_v0_w inv_v1_w : f32)
    (dx dy sx sy p err x y y_index : Z) (m : memory) : option memory :=
  lengthp ← F64.to_s32 (F64.hypot (F32.of_Z x - rl_x0 params)%f32
                                  (F32.of_Z y - rl_y0 params)%f32);
  ilength ← F32.to_s32 length;
  if lengthp >=? ilength then Some m
  else
    match fuel with
    | O => None
    | S fuel' =>
        m ← (if (0 <=? x) && (u32 x <? rb_width ctx)
                && (0 <=? y) && (u32 y <? rb_height ctx)
             then line_fragment ctx params length inv_length inv_v0_w
                    inv_v1_w p x y (u32 (y_index + x)) m
             else Some m);
        let p := s32 (p + 1) in
        let e2 := err in
        let err := if e2 >? - dx then s32 (err - dy) else err in
        let x := if e2 >? - dx then s32 (x + sx) else x in
        let err := if e2 <? dy then s32 (err + dx) else err in
        let y_index := if e2 <? dy then u32 (y_index + sy * rb_width ctx)
                       else y_index in
        let y := if e2 <? dy then s32 (y + sy) else y in
        line_walk fuel' ctx params length inv_length inv_v0_w inv_v1_w
          dx dy sx sy p err x y y_index m
    end.

Definition _raster_line (cur : option brcontext)
    (params : option _raster_line_t) (m : memory) : option memory :=
  match params, cur with
  | None, _ => Some m
  | _, None => Some m
  | Some params, Some ctx =>
      (* 24.8 fixed point *)
      x0 ← F32.to_s32 (rl_x0 params * F32.of_Z 256)%f32;
      x1 ← F32.to_s32 (rl_x1 params * F32.of_Z 256)%f32;
      y0 ← F32.to_s32 (rl_y0 params * F32.of_Z 256)%f32;
      y1 ← F32.to_s32 (rl_y1 params * F32.of_Z 256)%f32;
      let length :=
        F64.to_f32 (F64.hypot (rl_x0 params - rl_x1 params)%f32
                              (rl_y0 params - rl_y1 params)%f32) in
      if (length =? F32.zero)%f32 then Some m
      else
        let inv_length := (F32.one / length)%f32 in
        let inv_v0_w := if persp_corr ctx then _fdiv F32.one (rl_w0 params)
                        else F32.zero in
        let inv_v1_w := if persp_corr ctx then _fdiv F32.one (rl_w1 params)
                        else F32.zero in
        let dx := s32 (Z.abs (s32 (x1 - x0))) in
        let sx := if x0 <? x1 then 1 else -1 in
        let dy := s32 (Z.abs (s32 (y1 - y0))) in
        let sy := if y0 <? y1 then 1 else -1 in
        let err := cdiv (if dx >? dy then dx else - dy) 2 in
        x ← F32.to_s32 (rl_x0 params);
        y ← F32.to_s32 (rl_y0 params);
        let y_index := u32 (y * rb_width ctx) in
        ilength ← F32.to_s32 length;
        line_walk (Z.to_nat (2 * ilength + 6)) ctx params length inv_length
          inv_v0_w inv_v1_w dx dy sx sy 0 err x y y_index m
  end.

Record _line_t : Type := {
  ln_v0 : brvec4; ln_v1 : brvec4;
  ln_rgba0 : brvec4; ln_rgba1 : brvec4;
  ln_tcoords0 : brvec2; ln_tcoords1 : brvec2
}.

Definition with_ends (v0 v1 : brvec4) (line : _line_t) : _line_t :=
  {| ln_v0 := v0; ln_v1 := v1;
     ln_rgba0 := ln_rgba0 line; ln_rgba1 := ln_rgba1 line;
     ln_tcoords0 := ln_tcoords0 line; ln_tcoords1 := ln_tcoords1 line |}.

(** The end points of a line after the perspective division and the Z
    rescale of [_process_line]. *)
Definition _process_line_vertices (ctx : brcontext) (line : _line_t)
    : _line_t :=
  with_ends (rescale_z ctx (persp_divide ctx (ln_v0 line)))
            (rescale_z ctx (persp_divide ctx (ln_v1 line))) line.

(** The part of [_process_line] after clipping.  [clipped] is never set
    in the source, so the barycentrics of the ends are always those of an
    unclipped line. *)
Definition _process_line_raster (ctx : brcontext) (line : _line_t)
    (m : memory) : option memory :=
  let cur := Some ctx in
  let line := _process_line_vertices ctx line in
  ts ← active_texture ctx;
  tx ← (if ts_complete ts then
          t0 ← texel_coords ts (ln_tcoords0 line);
          t1 ← texel_coords ts (ln_tcoords1 line);
          Some (t0, t1)
        else Some (Vec2 0 0, Vec2 0 0));
  let '(tx0, tx1) := tx in
  let x0 := raster_x ctx (ln_v0 line) in
  let y0 := raster_y ctx (ln_v0 line) in
  let x1 := raster_x ctx (ln_v1 line) in
  let y1 := raster_y ctx (ln_v1 line) in
  rgba0 ← to_fixed_color (ln_rgba0 line);
  rgba1 ← to_fixed_color (ln_rgba1 line);
  m ← _raster_point cur (Some (vertex_marker x0 y0)) m;
  m ← _raster_point cur (Some (vertex_marker x1 y1)) m;
  _raster_line cur
    (Some {| rl_x0 := x0; rl_x1 := x1; rl_y0 := y0; rl_y1 := y1;
             rl_bary0 := Vec3 F32.one F32.zero F32.zero;
             rl_bary1 := Vec3 F32.zero F32.one F32.zero;
             rl_z0 := _convert_depth ctx (vz (ln_v0 line));
             rl_z1 := _convert_depth ctx (vz (ln_v1 line));
             rl_w0 := vw (ln_v0 line); rl_w1 := vw (ln_v1 line);
             rl_rgba0 := rgba0; rl_rgba1 := rgba1;
             rl_tx0 := tx0; rl_tx1 := tx1;
             rl_tex := ts |}) m.

(** ** Points *)

Record _point_t : Type := {
  pt_pos : brvec4;
  pt_rgba : brvec4
}.

(** The position of a point after the perspective division and the Z
    rescale of [_process_point]. *)
Definition _process_point_vertex (ctx : brcontext) (point : _point_t)
    : brvec4 :=
  rescale_z ctx (persp_divide ctx (pt_pos point)).

Definition _process_point (cur : option brcontext) (point : option _point_t)
    (m : memory) : option memory :=
  match cur, point with
  | None, _ => Some m
  | _, None => Some m
  | Some ctx, Some point =>
      let pos := pt_pos point in
      if clip ctx
         && ((- vw pos >? vx pos)%f32 || (vx pos >? vw pos)%f32
             || (- vw pos >? vy pos)%f32 || (vy pos >? vw pos)%f32
             || (- vw pos >? vz pos)%f32 || (vz pos >? vw pos)%f32)
      then Some m
      else
        let pos := _process_point_vertex ctx point in
        rgba ← to_fixed_color (pt_rgba point);
        r ← F32.to_u32 (point_radius ctx + F32.half)%f32;
        _raster_point cur
          (Some {| rp_x := raster_x ctx pos; rp_y := raster_y ctx pos;
                   rp_rgba := rgba; rp_r := r;
                   rp_z := _convert_depth ctx (vz pos);
                   rp_w := vw pos |}) m
  end.

(** ** Vertex arrays *)

(** One vertex record read from the array. *)
Record vertex_data : Type := {
  vd_position : brvec4;
  vd_color : brvec4;
  vd_normal : brvec3;
  vd_tcoord : brvec2
}.

(** [*(float* )((void* )array + offset)]: the [float] at a byte offset
    of the array, which is given as the list of its [float] elements. *)
Definition read_float (array : list f32) (offset : Z) : option f32 :=
  if (0 <=? offset) && (offset mod 4 =? 0)
  then array !! Z.to_nat (offset / 4) else None.

(** The block "load to vertex" of the draw calls, the same for each of
    the three vertex slots. *)
Definition load_vertex (ctx : brcontext) (array : list f32)
    (vertex_offset color_offset normal_offset tcoord_offset : Z)
    : option vertex_data :=
  let position := Vec4 F32.zero F32.zero F32.zero F32.one in
  let color := Vec4 F32.zero F32.zero F32.zero F32.one in
  let normal := Vec3 F32.zero F32.zero F32.zero in
  let tcoord := Vec2 F32.zero F32.zero in
  position ←
    (if vertex_array ctx then
       match vertex_count ctx with
       | 2 =>
           x ← read_float array vertex_offset;
           y ← read_float array (vertex_offset + 4);
           Some (Vec4 x y (vz position) (vw position))
       | 3 =>
           x ← read_float array vertex_offset;
           y ← read_float array (vertex_offset + 4);
           z ← read_float array (vertex_offset + 4 * 2);
           Some (Vec4 x y z (vw position))
       | 4 =>
           x ← read_float array vertex_offset;
           y ← read_float array (vertex_offset + 4);
           z ← read_float array (vertex_offset + 4 * 2);
           w ← read_float array (vertex_offset + 4 * 3);
           Some (Vec4 x y z w)
       | _ => Some position
       end
     else Some position);
  color ←
    (if color_array ctx then
       match color_count ctx with
       | 3 =>
           r ← read_float array color_offset;
           g ← read_float array (color_offset + 4);
           b ← read_float array (color_offset + 4 * 2);
           Some (Vec4 r g b (vw color))
       | 4 =>
           r ← read_float array color_offset;
           g ← read_float array (color_offset + 4);
           b ← read_float array (color_offset + 4 * 2);
           a ← read_float array (color_offset + 4 * 3);
           Some (Vec4 r g b a)
       | _ => Some color
       end
     else Some color);
  normal ←
    (if normal_array ctx then
       x ← read_float array normal_offset;
       y ← read_float array (normal_offset + 4);
       z ← read_float array (normal_offset + 4 * 2);
       Some (Vec3 x y z)
     else Some normal);
  tcoord ←
    (if tcoord_array ctx then
       u ← read_float array tcoord_offset;
       v ← read_float array (tcoord_offset + 4);
       Some (Vec2 u v)
     else Some tcoord);
  Some {| vd_position := position; vd_color := color;
          vd_normal := normal; vd_tcoord := tcoord |}.

(** [vertex.position = position; ...; position = _vertex_pass(&vertex);] *)
Definition shade_vertex (ctx : brcontext) (type : Z) (v : vertex_data)
    : brvec4 :=
  _vertex_pass ctx
    {| vt_type := type; vt_position := vd_position v;
       vt_tcoords := vd_tcoord v; vt_normals := vd_normal v;
       vt_color := vd_color v |}.

Definition make_triangle (p0 p1 p2 : brvec4) (v0 v1 v2 : vertex_data)
    : _triangle_t :=
  {| tr_v0 := p0; tr_v1 := p1; tr_v2 := p2;
     tr_rgba0 := vd_color v0; tr_rgba1 := vd_color v1;
     tr_rgba2 := vd_color v2;
     tr_tcoords0 := vd_tcoord v0; tr_tcoords1 := vd_tcoord v1;
     tr_tcoords2 := vd_tcoord v2;
     tr_parent := None;
     tr_parent_orig_v0 := Vec2 0 0;
     tr_parent_orig_v1 := Vec2 0 0;
     tr_parent_orig_v2 := Vec2 0 0 |}.

Definition make_line (p0 p1 : brvec4) (v0 v1 : vertex_data) : _line_t :=
  {| ln_v0 := p0; ln_v1 := p1;
     ln_rgba0 := vd_color v0; ln_rgba1 := vd_color v1;
     ln_tcoords0 := vd_tcoord v0; ln_tcoords1 := vd_tcoord v1 |}.

Definition make_point (p : brvec4) (v : vertex_data) : _point_t :=
  {| pt_pos := p; pt_rgba := vd_color v |}.

(** The three vertex slots of a draw call; a slot is [None] until it is
    loaded. *)
Record vertex_slots : Type := {
  slot0 : option vertex_data;
  slot1 : option vertex_data;
  slot2 : option vertex_data
}.

Section Pipeline.

(** The clippers ([clip_triangle] and [clip_line], which work through
    the file-level state of [clipper]) are no part of the properties
    stated below; the pipeline is parametric in them.  [clip_triangle]
    maps the three clip-space vertices to the vertex list of the clipped
    polygon, empty when the source returns [false]; [clip_line] maps the
    two ends of a line to its clipped ends. *)
Variable clip_triangle : brvec4 -> brvec4 -> brvec4 -> list brvec4.
Variable clip_line : brvec4 -> brvec4 -> brvec4 * brvec4.

(** [for(int i = 1; i < vert_count - 1; i++)]: the fan about [initial]. *)
Fixpoint process_fan (ctx : brcontext) (child : _triangle_t)
    (initial : brvec4) (verts : list brvec4) (m : memory)
    : option memory :=
  match verts with
  | v1 :: (v2 :: _) as rest =>
      m ← _process_triangle_raster ctx (with_vertices initial v1 v2 child) m;
      process_fan ctx child initial rest m
  | _ => Some m
  end.

Definition _process_triangle (cur : option brcontext)
    (triangle : option _triangle_t) (m : memory) : option memory :=
  match cur, triangle with
  | None, _ => Some m
  | _, None => Some m
  | Some ctx, Some triangle =>
      let is_parent := negb (bool_decide (is_Some (tr_parent triangle))) in
      let cw := winding_is_cw triangle in
      if cull ctx && is_parent
         && ((cw && (cull_winding ctx =? BR_CW))
             || (negb cw && (cull_winding ctx =? BR_CCW)))
      then Some m
      else if clip ctx && is_parent
              && negb (in_frustum (tr_v0 triangle))
              && negb (in_frustum (tr_v1 triangle))
              && negb (in_frustum (tr_v2 triangle))
      then Some m
      else if clip ctx && is_parent
              && (negb (in_frustum (tr_v0 triangle))
                  || negb (in_frustum (tr_v1 triangle))
                  || negb (in_frustum (tr_v2 triangle)))
      then
        let child := triangle in
        let parent := _process_triangle_vertices ctx triangle in
        o0 ← to_24_8 (raster_x ctx (tr_v0 parent)) (raster_y ctx (tr_v0 parent));
        o1 ← to_24_8 (raster_x ctx (tr_v1 parent)) (raster_y ctx (tr_v1 parent));
        o2 ← to_24_8 (raster_x ctx (tr_v2 parent)) (raster_y ctx (tr_v2 parent));
        let parent := with_parent_orig o0 o1 o2 parent in
        let child := with_parent (Some parent) child in
        match clip_triangle (tr_v0 triangle) (tr_v1 triangle)
                (tr_v2 triangle) with
        | initial :: rest => process_fan ctx child initial rest m
        | [] => Some m
        end
      else _process_triangle_raster ctx triangle m
  end.

Definition _process_line (cur : option brcontext) (line : option _line_t)
    (m : memory) : option memory :=
  match cur, line with
  | None, _ => Some m
  | _, None => Some m
  | Some ctx, Some line =>
      if clip ctx then
        if negb (in_frustum (ln_v0 line)) && negb (in_frustum (ln_v1 line))
        then Some m
        else
          let '(v0, v1) := clip_line (ln_v0 line) (ln_v1 line) in
          _process_line_raster ctx (with_ends v0 v1 line) m
      else _process_line_raster ctx line m
  end.

(** What a draw call does once the last vertex of a primitive is loaded:
    the vertex passes, then the primitive in the current polygon mode. *)
Definition draw_triangle (ctx : brcontext) (v0 v1 v2 : vertex_data)
    (m : memory) : option memory :=
  let cur := Some ctx in
  let p0 := shade_vertex ctx BR_TRIANGLE v0 in
  let p1 := shade_vertex ctx BR_TRIANGLE v1 in
  let p2 := shade_vertex ctx BR_TRIANGLE v2 in
  m ← (if poly_mode ctx =? BR_FILL
       then _process_triangle cur (Some (make_triangle p0 p1 p2 v0 v1 v2)) m
       else Some m);
  m ← (if poly_mode ctx =? BR_LINE then
         m ← _process_line cur (Some (make_line p0 p1 v0 v1)) m;
         m ← _process_line cur (Some (make_line p1 p2 v1 v2)) m;
         _process_line cur (Some (make_line p2 p0 v2 v0)) m
       else Some m);
  if poly_mode ctx =? BR_POINT then
    m ← _process_point cur (Some (make_point p0 v0)) m;
    m ← _process_point cur (Some (make_point p1 v1)) m;
    _process_point cur (Some (make_point p2 v2)) m
  else Some m.

Definition draw_line (ctx : brcontext) (v0 v1 : vertex_data) (m : memory)
    : option memory :=
  let cur := Some ctx in
  let p0 := shade_vertex ctx BR_LINE v0 in
  let p1 := shade_vertex ctx BR_LINE v1 in
  m ← (if (poly_mode ctx =? BR_FILL) || (poly_mode ctx =? BR_LINE)
       then _process_line cur (Some (make_line p0 p1 v0 v1)) m
       else Some m);
  if poly_mode ctx =? BR_POINT then
    m ← _process_point cur (Some (make_point p0 v0)) m;
    _process_point cur (Some (make_point p1 v1)) m
  else Some m.

Definition draw_point (ctx : brcontext) (v0 : vertex_data) (m : memory)
    : option memory :=
  let p0 := shade_vertex ctx BR_POINT v0 in
  _process_point (Some ctx) (Some (make_point p0 v0)) m.

(** The body of the loop of a draw call after the offsets of vertex [i]
    are known: load the vertex into slot [v], draw if a primitive is
    complete, and step [v]. *)
Definition draw_step (ctx : brcontext) (ptype : Z) (array : list f32)
    (vertex_offset color_offset normal_offset tcoord_offset : Z)
    (v : Z) (slots : vertex_slots) (m : memory)
    : option (Z * vertex_slots * memory) :=
  slots ←
    (if (v =? 0) || (v =? 1) || (v =? 2) then
       d ← load_vertex ctx array vertex_offset color_offset normal_offset
             tcoord_offset;
       Some (if v =? 0 then
               {| slot0 := Some d; slot1 := slot1 slots;
                  slot2 := slot2 slots |}
             else if v =? 1 then
               {| slot0 := slot0 slots; slot1 := Some d;
                  slot2 := slot2 slots |}
             else
               {| slot0 := slot0 slots; slot1 := slot1 slots;
                  slot2 := Some d |})
     else Some slots);
  m ← (if (ptype =? BR_TRIANGLES) && (v =? 2) then
         v0 ← slot0 slots; v1 ← slot1 slots; v2 ← slot2 slots;
         draw_triangle ctx v0 v1 v2 m
       else Some m);
  m ← (if (ptype =? BR_LINES) && (v =? 1) then
         v0 ← slot0 slots; v1 ← slot1 slots;
         draw_line ctx v0 v1 m
       else Some m);
  m ← (if ptype =? BR_POINTS then
         v0 ← slot0 slots;
         draw_point ctx v0 m
       else Some m);
  let v := u32 (v + 1) in
  let v := if (ptype =? BR_TRIANGLES) && (v >? 2) then 0 else v in
  let v := if (ptype =? BR_LINES) && (v >? 1) then 0 else v in
  let v := if ptype =? BR_POINTS then 0 else v in
  Some (v, slots, m).

(** [for(uint32_t i = 0; i < indices; i += 1)] of [brDrawArray]: the
    offsets advance by the strides. *)
Fixpoint draw_array_loop (n : nat) (ctx : brcontext) (ptype : Z)
    (array : list f32)
    (vertex_offset color_offset normal_offset tcoord_offset : Z)
    (v : Z) (slots : vertex_slots) (m : memory) : option memory :=
  match n with
  | O => Some m
  | S n' =>
      r ← draw_step ctx ptype array vertex_offset color_offset
            normal_offset tcoord_offset v slots m;
      let '(v, slots, m) := r in
      draw_array_loop n' ctx ptype array
        (vertex_offset + vertex_stride ctx) (color_offset + color_stride ctx)
        (normal_offset + normal_stride ctx)
        (tcoord_offset + tcoord_stride ctx) v slots m
  end.

(** [brDrawArray] reads the offsets through [_brcontext] before its loop,
    without a test of the pointer. *)
Definition brDrawArray (ptype indices : Z) (array : list f32) (w : world)
    : option world :=
  let ptype := u32 ptype in
  let indices := u32 indices in
  a ← _brcontext w;
  ctx ← contexts w !! a;
  m ← draw_array_loop (Z.to_nat indices) ctx ptype array
        (vertex_offset ctx) (color_offset ctx) (normal_offset ctx)
        (tcoord_offset ctx) 0
        {| slot0 := None; slot1 := None; slot2 := None |} (mem w);
  Some (World (contexts w) (_brcontext w) m).

(** [for(uint32_t i = 0; i < indices; i += 1)] of [brDrawElements]: the
    offsets of vertex [i] are those of element [elements[i]]. *)
Fixpoint draw_elements_loop (n : nat) (i : Z) (w : world) (ptype : Z)
    (array : list f32) (elements : list Z) (v : Z) (slots : vertex_slots)
    (m : memory) : option memory :=
  match n with
  | O => Some m
  | S n' =>
      a ← _brcontext w;
      ctx ← contexts w !! a;
      e ← array_get elements i;
      r ← draw_step ctx ptype array
            (vertex_offset ctx + vertex_stride ctx * e)
            (color_offset ctx + color_stride ctx * e)
            (normal_offset ctx + normal_stride ctx * e)
            (tcoord_offset ctx + tcoord_stride ctx * e) v slots m;
      let '(v, slots, m) := r in
      draw_elements_loop n' (i + 1) w ptype array elements v slots m
  end.

Definition brDrawElements (ptype indices : Z) (array : list f32)
    (elements : list Z) (w : world) : option world :=
  let ptype := u32 ptype in
  let indices := u32 indices in
  m ← draw_elements_loop (Z.to_nat indices) 0 w ptype array elements 0
        {| slot0 := None; slot1 := None; slot2 := None |} (mem w);
  Some (World (contexts w) (_brcontext w) m).

End Pipeline.

(** ** The API calls

    The entry points that assign to a field of a context or to
    [_brcontext], and the two draw calls.  The remaining ones ([brClear],
    [brIsEnabled], [brGetState] and [brCreateRenderbuffer]) contain no
    assignment to a field of a context or to [_brcontext]. *)

Inductive api_call : Type :=
| CreateContext
| BindContext (context : ptr)
| FreeContext (context : ptr)
| BindRenderbuffer (type width height : Z) (buffer : ptr)
| UnbindRenderbuffer (buffers : Z)
| PolygonMode (mode : Z)
| CullWinding (winding : Z)
| PointSize (radius : f32)
| Enable (state : Z)
| Disable (state : Z)
| BindShader (type : Z) (shader : shader_ptr)
| SwapBuffers
| ActiveTexture (unit : Z)
| Texture (data : ptr) (format width height : Z) (compressed : bool)
| ClearColor (r g b a : f32)
| ClearDepth (depth : f32)
| VertexPointer (count offset stride : Z)
| ColorPointer (count offset stride : Z)
| NormalPointer (offset stride : Z)
| TexCoordPointer (offset stride : Z)
| DrawArray (ptype indices : Z) (array : list f32)
| DrawElements (ptype indices : Z) (array : list f32) (elements : list Z).

Definition api_step
    (clip_triangle : brvec4 -> brvec4 -> brvec4 -> list brvec4)
    (clip_line : brvec4 -> brvec4 -> brvec4 * brvec4)
    (call : api_call) (w : world) : option world :=
  match call with
  | CreateContext => Some (fst (brCreateContext w))
  | BindContext context => Some (brBindContext context w)
  | FreeContext context => brFreeContext context w
  | BindRenderbuffer type width height buffer =>
      brBindRenderbuffer type width height buffer w
  | UnbindRenderbuffer buffers => brUnbindRenderbuffer buffers w
  | PolygonMode mode => brPolygonMode mode w
  | CullWinding winding => brCullWinding winding w
  | PointSize radius => brPointSize radius w
  | Enable state => brEnable state w
  | Disable state => brDisable state w
  | BindShader type shader => brBindShader type shader w
  | SwapBuffers => brSwapBuffers w
  | ActiveTexture unit => brActiveTexture unit w
  | Texture data format width height compressed =>
      brTexture data format width height compressed w
  | ClearColor r g b a => brClearColor r g b a w
  | ClearDepth depth => brClearDepth depth w
  | VertexPointer count offset stride =>
      brVertexPointer count offset stride w
  | ColorPointer count offset stride => brColorPointer count offset stride w
  | NormalPointer offset stride => brNormalPointer offset stride w
  | TexCoordPointer offset stride => brTexCoordPointer offset stride w
  | DrawArray ptype indices array =>
      brDrawArray clip_triangle clip_line ptype indices array w
  | DrawElements ptype indices array elements =>
      brDrawElements clip_triangle clip_line ptype indices array elements w
  end.

(** ** State predicates *)

(** [0 <= v <= 1], which no NaN satisfies. *)
Definition in_unit (v : f32) : bool :=
  (F32.zero <=? v)%f32 && (v <=? F32.one)%f32.

Definition context_ok (c : brcontext) : Prop :=
  0 <= texture_unit c <= 255
  /\ in_unit (clear_depth c) = true
  /\ in_unit (vx (clear_color c)) = true
  /\ in_unit (vy (clear_color c)) = true
  /\ in_unit (vz (clear_color c)) = true
  /\ in_unit (vw (clear_color c)) = true
  /\ (F32.zero <=? point_radius c)%f32 = true.

Definition world_ok (w : world) : Prop :=
  forall a c, contexts w !! a = Some c -> context_ok c.

(** No argument of [brClearColor] or [brClearDepth] is a NaN. *)
Definition no_nan_argument (call : api_call) : Prop :=
  match call with
  | ClearColor r g b a =>
      F32.is_nan r = false /\ F32.is_nan g = false
      /\ F32.is_nan b = false /\ F32.is_nan a = false
  | ClearDepth depth => F32.is_nan depth = false
  | _ => True
  end.

(** The current context pointer is null or points to a live context. *)
Definition binding_ok (w : world) : Prop :=
  forall a, _brcontext w = Some a -> is_Some (contexts w !! a).

(** Dereference of the current context pointer, for code that has tested
    it: [None] when no context is bound. *)
Definition current_context (w : world) : option brcontext :=
  a ← _brcontext w; contexts w !! a.

(** The 1-bit-alpha colour formats, with the position of the alpha bit. *)
Definition alpha_bit (format : Z) : option Z :=
  match format with
  | BR_R5G5B5A1 => Some 0
  | BR_A1B5G5R5 => Some 15
  | BR_R3G2B2A1 => Some 0
  | BR_A1B2G2R3 => Some 7
  | _ => None
  end.

(** ** The single red triangle

    A 64x64 [BR_R8G8B8A8] colour buffer of zeros, bound to a fresh
    context; no depth buffer, no shader, no texture; the triangle
    (-0.5,-0.5,0,1) (0.5,-0.5,0,1) (0,0.5,0,1) with colour (1,0,0,1) at
    every vertex. *)

Module Scene.

Definition color_buffer : nat := 0%nat.

Definition initial : world :=
  World ∅ None {[ color_buffer := replicate 4096 0 ]}.

Definition setup : option world :=
  let '(w, p) := brCreateContext initial in
  brBindRenderbuffer BR_R8G8B8A8 64 64 (Some color_buffer)
    (brBindContext p w).

Definition minus_half : f32 := (- F32.half)%f32.
Definition red : brvec4 := Vec4 F32.one F32.zero F32.zero F32.one.
Definition no_tcoords : brvec2 := Vec2 F32.zero F32.zero.

Definition triangle : _triangle_t :=
  {| tr_v0 := Vec4 minus_half minus_half F32.zero F32.one;
     tr_v1 := Vec4 F32.half minus_half F32.zero F32.one;
     tr_v2 := Vec4 F32.zero F32.half F32.zero F32.one;
     tr_rgba0 := red; tr_rgba1 := red; tr_rgba2 := red;
     tr_tcoords0 := no_tcoords; tr_tcoords1 := no_tcoords;
     tr_tcoords2 := no_tcoords;
     tr_parent := None;
     tr_parent_orig_v0 := Vec2 0 0;
     tr_parent_orig_v1 := Vec2 0 0;
     tr_parent_orig_v2 := Vec2 0 0 |}.

(** The colour buffer after the draw, for a given clipper. *)
Definition rendered (clip_triangle : brvec4 -> brvec4 -> brvec4 -> list brvec4)
    : option (list Z) :=
  w ← setup;
  m ← _process_triangle clip_triangle (current_context w) (Some triangle)
        (mem w);
  m !! color_buffer.

(** The same triangle as a vertex array of interleaved positions and
    colours, eight [float]s to a vertex, drawn through the API. *)
Definition vertices : list f32 :=
  [minus_half; minus_half; F32.zero; F32.one;
   F32.one; F32.zero; F32.zero; F32.one;
   F32.half; minus_half; F32.zero; F32.one;
   F32.one; F32.zero; F32.zero; F32.one;
   F32.zero; F32.half; F32.zero; F32.one;
   F32.one; F32.zero; F32.zero; F32.one].

Definition ready : option world :=
  w ← setup;
  w ← brVertexPointer 4 0 32 w;
  w ← brColorPointer 4 16 32 w;
  w ← brEnable BR_VERTEX_ARRAY w;
  brEnable BR_COLOR_ARRAY w.

Definition drawn (clip_triangle : brvec4 -> brvec4 -> brvec4 -> list brvec4)
    (clip_line : brvec4 -> brvec4 -> brvec4 * brvec4) : option (list Z) :=
  w ← ready;
  w ← brDrawArray clip_triangle clip_line BR_TRIANGLES 3 vertices w;
  mem w !! color_buffer.

Definition pixel (image : option (list Z)) (x y : Z) : option Z :=
  buf ← image; buf !! Z.to_nat (y * 64 + x).

(** The viewport maps the vertices to (16,48), (48,48) and (32,16).  A
    point is in the closed projected triangle when it is on the inner side
    of its three edges. *)
Definition left_edge (px py : Z) : Z := 2 * (px - 32) + (py - 16).
Definition right_edge (px py : Z) : Z := (py - 16) - 2 * (px - 32).
Definition bottom_edge (px py : Z) : Z := 48 - py.

Definition in_triangle (px py : Z) : bool :=
  (0 <=? left_edge px py) && (0 <=? right_edge px py)
  && (0 <=? bottom_edge px py).

(** A pixel is inside when its unit square lies in the triangle, and
    outside when its square does not meet the triangle: one of the edge
    lines, or a side of the bounding box, separates them. *)
Definition pixel_inside (x y : Z) : bool :=
  in_triangle x y && in_triangle (x + 1) y
  && in_triangle x (y + 1) && in_triangle (x + 1) (y + 1).

Definition beyond (edge : Z -> Z -> Z) (x y : Z) : bool :=
  (edge x y <? 0) && (edge (x + 1) y <? 0)
  && (edge x (y + 1) <? 0) && (edge (x + 1) (y + 1) <? 0).

Definition pixel_outside (x y : Z) : bool :=
  beyond left_edge x y || beyond right_edge x y || beyond bottom_edge x y
  || (x + 1 <? 16) || (48 <? x) || (y + 1 <? 16) || (48 <? y).

(** Within two pixels of a projected vertex, in both directions. *)
Definition near (vx0 vy0 x y : Z) : bool :=
  (Z.abs (x - vx0) <=? 2) && (Z.abs (y - vy0) <=? 2).

Definition near_vertex (x y : Z) : bool :=
  near 16 48 x y || near 48 48 x y || near 32 16 x y.

Definition opaque_red : Z := _BR_R8G8B8A8 255 0 0 255.
Definition opaque_white : Z := _BR_R8G8B8A8 255 255 255 255.

(** The pixels of the buffer, row by row. *)
Definition all_pixels : list (Z * Z) :=
  y ← seqZ 0 64; x ← seqZ 0 64; [(x, y)].

(** Every pixel inside the triangle is opaque red. *)
Definition check_inside (image : option (list Z)) : bool :=
  forallb (fun '(x, y) =>
             implb (pixel_inside x y)
               (bool_decide (pixel image x y = Some opaque_red)))
    all_pixels.

(** Every pixel outside the triangle and away from its vertices holds 0. *)
Definition check_outside (image : option (list Z)) : bool :=
  forallb (fun '(x, y) =>
             implb (pixel_outside x y && negb (near_vertex x y))
               (bool_decide (pixel image x y = Some 0)))
    all_pixels.

End Scene.

(** ** Further concrete states *)

Module Example.

(** A context with a one-cell colour buffer of the given format. *)
Definition one_cell (format : Z) : brcontext :=
  set_rb_height 1 (set_rb_width 1
    (set_cb_type format (set_cb (Some 0%nat) new_context))).

Definition one_cell_memory : memory := {[ 0%nat := [0] ]}.

(** Full red, opaque, in 16.16. *)
Definition red_16_16 : brvec4ui := Vec4 65536 0 0 65536.

(** Full red with the smallest non-zero alpha, in 16.16. *)
Definition faint_red_16_16 : brvec4ui := Vec4 65536 0 0 1.

(** The 2x2 [BR_R8G8B8A8] texture, not compressed: red at (0,0), green at
    (1,0), blue at (0,1) and white at (1,1). *)
Definition texture_block : nat := 1%nat.
Definition texture_memory : memory :=
  {[ texture_block :=
       [255; 0; 0; 0;  0; 255; 0; 0;  0; 0; 255; 0;  255; 255; 255; 255] ]}.

Definition black : brvec4 := Vec4 F32.zero F32.zero F32.zero F32.zero.

Definition sample (x y : Z) : option brvec4 :=
  _get_texel (Some new_context) x y black (Some texture_block)
    BR_R8G8B8A8 2 2 false texture_memory.

(** The decoded texels of the block: a full 8-bit channel is
    [255 * _INV_255]; alpha is 0 in the first three. *)
Definition full : f32 := unorm 255 _INV_255.
Definition red_texel : brvec4 := Vec4 full F32.zero F32.zero F32.zero.
Definition green_texel : brvec4 := Vec4 F32.zero full F32.zero F32.zero.
Definition blue_texel : brvec4 := Vec4 F32.zero F32.zero full F32.zero.

(** A world with one fresh context, bound. *)
Definition bound_world : world :=
  let '(w, p) := brCreateContext (World ∅ None ∅) in brBindContext p w.

(** A world with no context bound. *)
Definition unbound_world : world := World ∅ None ∅.

(** A vertex with z = -1 and w = 1. *)
Definition near_plane_vertex : brvec4 :=
  Vec4 F32.zero F32.zero (- F32.one)%f32 F32.one.

Definition near_triangle : _triangle_t :=
  with_vertices near_plane_vertex near_plane_vertex near_plane_vertex
    Scene.triangle.

Definition near_line : _line_t :=
  {| ln_v0 := near_plane_vertex; ln_v1 := near_plane_vertex;
     ln_rgba0 := Scene.red; ln_rgba1 := Scene.red;
     ln_tcoords0 := Scene.no_tcoords; ln_tcoords1 := Scene.no_tcoords |}.

Definition near_point : _point_t :=
  {| pt_pos := near_plane_vertex; pt_rgba := Scene.red |}.

(** What the rescale of [-1,1] to [0,1] gives: [z*0.5 + 0.5]. *)
Definition expected_z (z : f32) : f32 := (z * F32.half + F32.half)%f32.

(** A bound context with double buffering enabled, a colour buffer in the
    front slot group and none in the back one. *)
Definition double_context : brcontext :=
  set_double_buffer true (one_cell BR_R8G8B8A8).

Definition double_world : world :=
  World {[ 0%nat := double_context ]} (Some 0%nat) one_cell_memory.

(** Clippers for a primitive inside the frustum. *)
Definition no_clip_triangle : brvec4 -> brvec4 -> brvec4 -> list brvec4 :=
  fun v0 v1 v2 => [v0; v1; v2].

Definition no_clip_line : brvec4 -> brvec4 -> brvec4 * brvec4 :=
  fun v0 v1 => (v0, v1).

(** The triangle of the scene with its clip-space coordinates scaled by
    100000: the same projected triangle, with w = 100000 at the three
    vertices. *)
Definition far_w : f32 := F32.of_Z 100000.
Definition far_half : f32 := F32.of_Z 50000.
Definition far_minus_half : f32 := (- far_half)%f32.

Definition far_vertices : list f32 :=
  [far_minus_half; far_minus_half; F32.zero; far_w;
   F32.one; F32.zero; F32.zero; F32.one;
   far_half; far_minus_half; F32.zero; far_w;
   F32.one; F32.zero; F32.zero; F32.one;
   F32.zero; far_half; F32.zero; far_w;
   F32.one; F32.zero; F32.zero; F32.one].

(** The colour buffer after the draw of the far triangle, with
    perspective correction left enabled or disabled first. *)
Definition far_drawn
    (clip_triangle : brvec4 -> brvec4 -> brvec4 -> list brvec4)
    (clip_line : brvec4 -> brvec4 -> brvec4 * brvec4)
    (persp_corr : bool) : option (list Z) :=
  w ← Scene.ready;
  w ← (if persp_corr then Some w
       else brDisable BR_PERSPECTIVE_CORRECTION w);
  w ← brDrawArray clip_triangle clip_line BR_TRIANGLES 3 far_vertices w;
  mem w !! Scene.color_buffer.

(** [1/w] of a far vertex, and the barycentrics of a fragment at the
    first vertex, in 16.16. *)
Definition far_inv_w : f32 := _fdiv F32.one far_w.
Definition first_vertex_bary : brvec3ui := Vec3 65536 0 0.

End Example.

(** * Properties *)

(** ** The binding *)

(** C10: [brBindContext] with a null pointer leaves the world, and so the
    current-context binding, as it was; with a non-null pointer it
    replaces the binding and nothing else. *)
Theorem brBindContext_null_keeps_binding (w : world) :
  brBindContext None w = w
  /\ forall a, brBindContext (Some a) w = World (contexts w) (Some a) (mem w).
Proof. split; [reflexivity | intros a; reflexivity]. Qed.

(** ** Contexts in the store *)

Lemma rebuild_id (c : brcontext) : rebuild c = c.
Proof. destruct c; reflexivity. Qed.

Lemma put_context_id (w : world) (a : nat) (c : brcontext) :
  contexts w !! a = Some c -> put_context a c w = w.
Proof.
  intros H. destruct w as [cs cur m]. unfold put_context. simpl in *.
  f_equal. by apply insert_id.
Qed.

Lemma put_context_twice (w : world) (a : nat) (c c' : brcontext) :
  put_context a c' (put_context a c w) = put_context a c' w.
Proof.
  destruct w as [cs cur m]. unfold put_context. simpl.
  f_equal. apply insert_insert_eq.
Qed.

Lemma with_context_bound (w : world) (a : nat) (c : brcontext) k :
  _brcontext w = Some a -> contexts w !! a = Some c ->
  with_context w k = k a c.
Proof. intros Hb Hc. unfold with_context. rewrite Hb. simpl. by rewrite Hc. Qed.

Lemma with_context_unbound (w : world) k :
  _brcontext w = None -> with_context w k = Some w.
Proof. intros Hb. unfold with_context. by rewrite Hb. Qed.

Lemma with_context_unguarded_unbound (w : world) k :
  _brcontext w = None -> with_context_unguarded w k = None.
Proof. intros Hb. unfold with_context_unguarded. by rewrite Hb. Qed.

(** ** Buffer swap *)

Lemma swapped_swapped (c : brcontext) : swapped (swapped c) = c.
Proof. destruct c; reflexivity. Qed.

Lemma brSwapBuffers_bound (w : world) (a : nat) (c : brcontext) :
  _brcontext w = Some a -> contexts w !! a = Some c ->
  brSwapBuffers w =
    Some (if double_buffer c then put_context a (swapped c) w else w).
Proof.
  intros Hb Hc. unfold brSwapBuffers. rewrite (with_context_bound w a c) by done.
  destruct (double_buffer c) eqn:Hd; simpl; [|done].
  reflexivity.
Qed.

(** C8: with a context bound, [brSwapBuffers] returns; with double
    buffering enabled the front slot group of the result (colour and depth
    pointers, their formats, width and height) is the back group of the
    original and conversely, with it disabled the world is unchanged; and
    a second [brSwapBuffers] gives the original world back. *)
Theorem brSwapBuffers_involution (w : world) (a : nat) (c : brcontext) :
  _brcontext w = Some a -> contexts w !! a = Some c ->
  exists w1 c1,
    brSwapBuffers w = Some w1
    /\ contexts w1 !! a = Some c1
    /\ (double_buffer c = true ->
        cb c1 = cb2 c /\ db c1 = db2 c
        /\ cb_type c1 = cb2_type c /\ db_type c1 = db2_type c
        /\ rb_width c1 = rb2_width c /\ rb_height c1 = rb2_height c
        /\ cb2 c1 = cb c /\ db2 c1 = db c
        /\ cb2_type c1 = cb_type c /\ db2_type c1 = db_type c
        /\ rb2_width c1 = rb_width c /\ rb2_height c1 = rb_height c)
    /\ (double_buffer c = false -> w1 = w)
    /\ brSwapBuffers w1 = Some w.
Proof.
  intros Hb Hc. rewrite (brSwapBuffers_bound w a c Hb Hc).
  destruct (double_buffer c) eqn:Hd.
  - exists (put_context a (swapped c) w), (swapped c).
    split; [done|]. split; [apply lookup_insert_eq|].
    split; [intros _; repeat split|]. split; [done|].
    rewrite (brSwapBuffers_bound _ a (swapped c)); [| done | apply lookup_insert_eq].
    replace (double_buffer (swapped c)) with true by (by rewrite <- Hd).
    rewrite put_context_twice, swapped_swapped. f_equal. by apply put_context_id.
  - exists w, c. split; [done|]. split; [done|]. split; [done|]. split; [done|].
    rewrite (brSwapBuffers_bound w a c Hb Hc), Hd. done.
Qed.

Lemma brSwapBuffers_involution_witness :
  exists w1,
    brSwapBuffers Example.double_world = Some w1
    /\ w1 <> Example.double_world
    /\ brSwapBuffers w1 = Some Example.double_world.
Proof.
  destruct (brSwapBuffers_involution Example.double_world 0%nat
              Example.double_context eq_refl eq_refl)
    as (w1 & c1 & H1 & H2 & H3 & _ & H4).
  exists w1. split; [exact H1|]. split; [|exact H4].
  intros ->. destruct (H3 eq_refl) as (Hcb & _).
  vm_compute in H2. injection H2 as <-. discriminate Hcb.
Defined.

(** With no context bound the swap leaves the world as it is. *)
Lemma brSwapBuffers_unbound (w : world) :
  _brcontext w = None -> brSwapBuffers w = Some w.
Proof. apply with_context_unbound. Qed.

(** ** Calls with no context bound *)

Lemma draw_elements_loop_unbound clip_triangle clip_line (n : nat) (i : Z)
    (w : world) (ptype : Z) (array : list f32) (elements : list Z) (v : Z)
    (slots : vertex_slots) (m : memory) :
  _brcontext w = None ->
  draw_elements_loop clip_triangle clip_line (S n) i w ptype array elements
    v slots m = None.
Proof. intros Hb. simpl. by rewrite Hb. Qed.

(** C3: with no context bound, each of the four vertex-array pointer
    setters that passes its argument test, [brDrawArray] with any
    arguments, and [brDrawElements] with at least one index dereference
    the null current-context pointer, so they have no defined result;
    [brEnable], which tests the pointer, returns with the world
    unchanged. *)
Theorem unbound_setters_and_draws_dereference_null
    (clip_triangle : brvec4 -> brvec4 -> brvec4 -> list brvec4)
    (clip_line : brvec4 -> brvec4 -> brvec4 * brvec4) (w : world) :
  _brcontext w = None ->
  (forall offset stride, brVertexPointer 3 offset stride w = None)
  /\ (forall offset stride, brColorPointer 4 offset stride w = None)
  /\ (forall offset stride, brNormalPointer offset stride w = None)
  /\ (forall offset stride, brTexCoordPointer offset stride w = None)
  /\ (forall ptype indices array,
        brDrawArray clip_triangle clip_line ptype indices array w = None)
  /\ (forall ptype array elements,
        brDrawElements clip_triangle clip_line ptype 3 array elements w
        = None)
  /\ (forall state, brEnable state w = Some w).
Proof.
  intros Hb. repeat split; intros.
  - unfold brVertexPointer. simpl. by apply with_context_unguarded_unbound.
  - unfold brColorPointer. simpl. by apply with_context_unguarded_unbound.
  - by apply with_context_unguarded_unbound.
  - by apply with_context_unguarded_unbound.
  - unfold brDrawArray. by rewrite Hb.
  - unfold brDrawElements.
    change (Z.to_nat (u32 3)) with 3%nat.
    by rewrite draw_elements_loop_unbound.
  - by apply with_context_unbound.
Qed.

Lemma unbound_setters_and_draws_dereference_null_witness :
  brVertexPointer 3 0 32 Example.unbound_world = None
  /\ brDrawArray Example.no_clip_triangle Example.no_clip_line BR_TRIANGLES 3
       Scene.vertices Example.unbound_world = None.
Proof.
  destruct (unbound_setters_and_draws_dereference_null
              Example.no_clip_triangle Example.no_clip_line
              Example.unbound_world eq_refl)
    as (Hv & _ & _ & _ & Hd & _).
  split; [apply Hv | apply Hd].
Defined.

(** ** Z rescale *)

(** The factor of the rescale: [0.5f + 0.5f]. *)
Lemma rescale_factor : (F32.half + F32.half)%f32 = F32.one.
Proof. vm_compute. reflexivity. Qed.

Lemma rescale_z_enabled (ctx : brcontext) (v : brvec4) :
  scale_z ctx = true ->
  rescale_z ctx v = Vec4 (vx v) (vy v) (vz v * F32.one)%f32 (vw v).
Proof. intros H. unfold rescale_z. by rewrite H, rescale_factor. Qed.

(** C2: in a fresh context, where [scale_z] is enabled, a vertex that
    enters with z = -1 and w = 1 leaves the Z-rescale step of the
    triangle, line and point preprocessors with z = -1, where
    z*0.5 + 0.5 is 0: the step multiplies z by 0.5 + 0.5. *)
Theorem scale_z_leaves_z_unscaled :
  scale_z new_context = true
  /\ vz Example.near_plane_vertex = (- F32.one)%f32
  /\ Example.expected_z (vz Example.near_plane_vertex) = F32.zero
  /\ vz (tr_v0 (_process_triangle_vertices new_context Example.near_triangle))
     = (- F32.one)%f32
  /\ vz (ln_v0 (_process_line_vertices new_context Example.near_line))
     = (- F32.one)%f32
  /\ vz (_process_point_vertex new_context Example.near_point)
     = (- F32.one)%f32
  /\ (- F32.one)%f32 <> F32.zero.
Proof. vm_compute. repeat split; discriminate. Qed.

(** ** Perspective correction *)

(** C4: the perspective correction of a triangle fragment divides
    65536.0f by an [int] without a guard: with a zero denominator the
    quotient is +infinity, not 0, and the corrected barycentrics have no
    defined value, both for zero inverse w and for the inverse of
    w = 100000; the far triangle drawn with perspective correction has no
    defined result, and drawn without it gives the image of the scene.
    The line code goes through [_fdiv]: there the quotient is 0. *)
Theorem triangle_perspective_division_unguarded
    (clip_triangle : brvec4 -> brvec4 -> brvec4 -> list brvec4)
    (clip_line : brvec4 -> brvec4 -> brvec4 * brvec4) :
  _raster_triangle_w 0 = F32.pinf
  /\ _raster_triangle_persp Example.first_vertex_bary
       F32.zero F32.zero F32.zero = None
  /\ _raster_triangle_persp Example.first_vertex_bary
       Example.far_inv_w Example.far_inv_w Example.far_inv_w = None
  /\ Example.far_drawn clip_triangle clip_line true = None
  /\ Example.far_drawn clip_triangle clip_line false
     = Scene.drawn clip_triangle clip_line
  /\ _raster_line_w Example.first_vertex_bary F32.zero F32.zero = F32.zero
  /\ _raster_line_persp Example.first_vertex_bary F32.zero F32.zero
     = Some (Vec3 0 0 0).
Proof. vm_compute. repeat split. Qed.
(** ** Pixel codec *)

Lemma store_in_range (m : memory) (a : nat) (b : cells) (i v : Z) :
  m !! a = Some b -> 0 <= i < Z.of_nat (length b) ->
  store m (Some a) i v = Some (<[a := <[Z.to_nat i := v]> b]> m).
Proof.
  intros Hm Hi. unfold store. rewrite Hm.
  destruct (Z.leb_spec 0 i); [|lia].
  destruct (Z.ltb_spec i (Z.of_nat (length b))); [|lia].
  reflexivity.
Qed.

(** C5: without blending, a plot into a [BR_R8G8B8] colour buffer stores
    [_BR_B8G8R8] of the three 8-bit channels, for every colour: full red
    is stored as 0x0000FF, with the red field in bits 0-7, where
    [_BR_R8G8B8] gives 0xFF0000. *)
Theorem plot_R8G8B8_stores_B8G8R8 (ctx : brcontext) (index : Z)
    (rgba : brvec4ui) (m : memory) :
  cb_type ctx = BR_R8G8B8 ->
  _plot_pixel ctx index rgba false m
  = store m (cb ctx) index
      (_BR_B8G8R8 (chan8 (vx rgba) 255) (chan8 (vy rgba) 255)
         (chan8 (vz rgba) 255))
  /\ _plot_pixel (Example.one_cell BR_R8G8B8) 0 Example.red_16_16 false
       Example.one_cell_memory
     = Some {[ 0%nat := [0x0000FF] ]}
  /\ _BR_R8G8B8 (chan8 (vx Example.red_16_16) 255)
       (chan8 (vy Example.red_16_16) 255) (chan8 (vz Example.red_16_16) 255)
     = 0xFF0000.
Proof.
  intros Hf. split; [|split; vm_compute; reflexivity].
  unfold _plot_pixel. rewrite Hf. reflexivity.
Qed.

Lemma plot_R8G8B8_stores_B8G8R8_witness :
  _plot_pixel (Example.one_cell BR_R8G8B8) 0 Example.red_16_16 false
    Example.one_cell_memory
  = store Example.one_cell_memory (Some 0%nat) 0
      (_BR_B8G8R8 255 0 0).
Proof.
  exact (proj1 (plot_R8G8B8_stores_B8G8R8 (Example.one_cell BR_R8G8B8) 0
                  Example.red_16_16 Example.one_cell_memory eq_refl)).
Defined.

Lemma testbit_u16 (v n : Z) :
  0 <= n < 16 -> Z.testbit (u16 v) n = Z.testbit v n.
Proof. intros H. unfold u16. apply Z.mod_pow2_bits_low. lia. Qed.

Lemma testbit_u8 (v n : Z) :
  0 <= n < 8 -> Z.testbit (u8 v) n = Z.testbit v n.
Proof. intros H. unfold u8. apply Z.mod_pow2_bits_low. lia. Qed.

Lemma alpha_bit_R5G5B5A1 (r g b : Z) :
  Z.testbit (_BR_R5G5B5A1 r g b 1) 0 = true.
Proof.
  unfold _BR_R5G5B5A1. rewrite testbit_u16 by lia.
  rewrite !Z.lor_spec. reflexivity.
Qed.

Lemma alpha_bit_A1B5G5R5 (r g b : Z) :
  Z.testbit (_BR_A1B5G5R5 r g b 1) 15 = true.
Proof.
  unfold _BR_A1B5G5R5. rewrite testbit_u16 by lia.
  rewrite !Z.lor_spec. apply orb_true_r.
Qed.

Lemma alpha_bit_R3G2B2A1 (r g b : Z) :
  Z.testbit (_BR_R3G2B2A1 r g b 1) 0 = true.
Proof.
  unfold _BR_R3G2B2A1. rewrite testbit_u8 by lia.
  rewrite !Z.lor_spec. reflexivity.
Qed.

Lemma alpha_bit_A1B2G2R3 (r g b : Z) :
  Z.testbit (_BR_A1B2G2R3 r g b 1) 7 = true.
Proof.
  unfold _BR_A1B2G2R3. rewrite testbit_u8 by lia.
  rewrite !Z.lor_spec. apply orb_true_r.
Qed.

Lemma alpha_bit_format (format bit : Z) :
  alpha_bit format = Some bit ->
  (format = BR_R5G5B5A1 /\ bit = 0) \/ (format = BR_A1B5G5R5 /\ bit = 15)
  \/ (format = BR_R3G2B2A1 /\ bit = 0) \/ (format = BR_A1B2G2R3 /\ bit = 7).
Proof.
  unfold alpha_bit. intros H.
  repeat match type of H with
         | context [match ?x with _ => _ end] =>
             destruct x; try discriminate H
         end;
    injection H as <-; auto 10.
Qed.

(** C7, amended: with blending, in a colour buffer of a 1-bit-alpha
    format, a plot whose 16.16 source alpha is below 32768 (one half)
    leaves the memory unchanged, and a plot whose source alpha is at
    least 32768 stores a value with the alpha bit set. *)
Theorem one_bit_alpha_threshold (ctx : brcontext) (a : nat) (b : cells)
    (bit index : Z) (rgba : brvec4ui) (m : memory) :
  alpha_bit (cb_type ctx) = Some bit ->
  cb ctx = Some a -> m !! a = Some b ->
  0 <= index < Z.of_nat (length b) ->
  (vw rgba < 32768 -> _plot_pixel ctx index rgba true m = Some m)
  /\ (32768 <= vw rgba ->
      exists v,
        _plot_pixel ctx index rgba true m
        = Some (<[a := <[Z.to_nat index := v]> b]> m)
        /\ Z.testbit v bit = true).
Proof.
  intros Hf Hcb Hm Hi.
  apply alpha_bit_format in Hf.
  unfold _plot_pixel. rewrite Hcb.
  destruct Hf as [[-> ->]|[[-> ->]|[[-> ->]|[-> ->]]]]; simpl negb; cbv iota;
    (split; intros Hw;
     [ destruct (Z.ltb_spec (vw rgba) 32768); [reflexivity | lia]
     | destruct (Z.ltb_spec (vw rgba) 32768); [lia|];
       eexists; split; [by apply store_in_range|] ]).
  - apply alpha_bit_R5G5B5A1.
  - apply alpha_bit_A1B5G5R5.
  - apply alpha_bit_R3G2B2A1.
  - apply alpha_bit_A1B2G2R3.
Qed.

Lemma one_bit_alpha_threshold_witness :
  _plot_pixel (Example.one_cell BR_R5G5B5A1) 0 Example.faint_red_16_16 true
    Example.one_cell_memory = Some Example.one_cell_memory.
Proof.
  apply (one_bit_alpha_threshold (Example.one_cell BR_R5G5B5A1) 0%nat [0] 0 0
           Example.faint_red_16_16 Example.one_cell_memory);
    [reflexivity | reflexivity | reflexivity | simpl; lia | simpl; lia].
Defined.

(** A source alpha of 1/65536 is greater than 0, and the pixel is
    discarded all the same; full alpha is stored with the alpha bit. *)
Lemma one_bit_alpha_discards_nonzero_alpha :
  0 < vw Example.faint_red_16_16
  /\ _plot_pixel (Example.one_cell BR_R5G5B5A1) 0 Example.faint_red_16_16
       true Example.one_cell_memory = Some Example.one_cell_memory
  /\ _plot_pixel (Example.one_cell BR_R5G5B5A1) 0 Example.red_16_16
       true Example.one_cell_memory
     = Some {[ 0%nat := [_BR_R5G5B5A1 31 0 0 1] ]}.
Proof. vm_compute. repeat split. Qed.

(** ** Texture sampler *)

Lemma clamp_texel_negative (x width : Z) :
  - 2 ^ 31 <= x < 0 -> 0 < width <= 2 ^ 31 -> clamp_texel x width = width - 1.
Proof.
  intros Hx Hw. unfold clamp_texel, u32, s32.
  replace (x mod 2 ^ 32) with (x + 2 ^ 32)
    by (apply Z.mod_unique with (-1); lia).
  destruct (Z.leb_spec width (x + 2 ^ 32)); [|lia].
  replace ((width - 1 + 2 ^ 31) mod 2 ^ 32) with (width - 1 + 2 ^ 31)
    by (symmetry; apply Z.mod_small; lia).
  destruct (Z.ltb_spec (width - 1 + 2 ^ 31 - 2 ^ 31) 0); lia.
Qed.

Lemma clamp_texel_in_range (x width : Z) :
  0 <= x < width -> width < 2 ^ 32 -> clamp_texel x width = x.
Proof.
  intros Hx Hw. unfold clamp_texel, u32.
  rewrite Z.mod_small by lia.
  destruct (Z.leb_spec width x); [lia|].
  destruct (Z.ltb_spec x 0); lia.
Qed.

Lemma clamp_texel_above (x width : Z) :
  0 < width <= x -> x < 2 ^ 31 -> clamp_texel x width = width - 1.
Proof.
  intros Hx Hw. unfold clamp_texel, u32, s32.
  rewrite Z.mod_small by lia.
  destruct (Z.leb_spec width x); [|lia].
  rewrite Z.mod_small by lia.
  destruct (Z.ltb_spec (width - 1 + 2 ^ 31 - 2 ^ 31) 0); lia.
Qed.

(** C6: a negative [int] coordinate is clamped to the last column or row,
    [width - 1] or [height - 1], not to 0: in the 2x2 texture with red at
    (0,0), green at (1,0) and blue at (0,1), the sample at (-1,0) is the
    green texel and the sample at (0,-1) is the blue one. *)
Theorem get_texel_negative_clamps_to_last (x width : Z) :
  - 2 ^ 31 <= x < 0 -> 0 < width <= 2 ^ 31 ->
  clamp_texel x width = width - 1
  /\ Example.sample 0 0 = Some Example.red_texel
  /\ Example.sample (-1) 0 = Some Example.green_texel
  /\ Example.sample 0 (-1) = Some Example.blue_texel
  /\ Example.green_texel <> Example.red_texel
  /\ Example.blue_texel <> Example.red_texel.
Proof.
  intros Hx Hw. split; [by apply clamp_texel_negative|].
  vm_compute. repeat split; discriminate.
Qed.

Lemma get_texel_negative_clamps_to_last_witness :
  clamp_texel (-1) 2 = 1.
Proof.
  apply (get_texel_negative_clamps_to_last (-1) 2); lia.
Defined.
(** ** State invariants *)

Lemma SFcompare_antisym (a b : f32) :
  SFcompare b a = option_map CompOpp (SFcompare a b).
Proof.
  destruct a as [sa|sa| |sa ma ea], b as [sb|sb| |sb mb eb]; simpl;
    try reflexivity;
    try (destruct sa; reflexivity); try (destruct sb; reflexivity);
    try (destruct sa, sb; reflexivity).
  destruct sa, sb; try reflexivity; f_equal;
    rewrite (Z.compare_antisym ea eb);
    destruct (ea ?= eb); simpl; try reflexivity;
    by rewrite (Pos.compare_cont_antisym ma mb Eq).
Qed.

Lemma SFcompare_not_nan (a b : f32) :
  F32.is_nan a = false -> F32.is_nan b = false ->
  exists c, SFcompare a b = Some c.
Proof.
  destruct a, b; simpl; intros; try discriminate; eauto.
Qed.

Lemma leb_of_not_gtb (a b : f32) :
  F32.is_nan a = false -> F32.is_nan b = false ->
  F32.gtb a b = false -> F32.leb a b = true.
Proof.
  intros Ha Hb. unfold F32.gtb, F32.leb, SFltb, SFleb.
  rewrite (SFcompare_antisym a b).
  destruct (SFcompare_not_nan a b Ha Hb) as [c ->]. by destruct c.
Qed.

Lemma leb_of_not_ltb (a b : f32) :
  F32.is_nan a = false -> F32.is_nan b = false ->
  F32.ltb a b = false -> F32.leb b a = true.
Proof.
  intros Ha Hb. unfold F32.ltb, F32.leb, SFltb, SFleb.
  rewrite (SFcompare_antisym a b).
  destruct (SFcompare_not_nan a b Ha Hb) as [c ->]. by destruct c.
Qed.

(** The clamp of [brClearColor]. *)
Lemma clamp_color_in_unit (v : f32) :
  F32.is_nan v = false ->
  in_unit (let v := if F32.ltb v F32.zero then F32.zero else v in
           if F32.gtb v F32.one then F32.one else v) = true.
Proof.
  intros Hv. cbv zeta.
  destruct (F32.ltb v F32.zero) eqn:Hlt; [reflexivity|].
  destruct (F32.gtb v F32.one) eqn:Hgt; [reflexivity|].
  unfold in_unit. apply andb_true_intro. split.
  - by apply leb_of_not_ltb.
  - by apply leb_of_not_gtb.
Qed.

(** The clamp of [brClearDepth]. *)
Lemma clamp_depth_in_unit (v : f32) :
  F32.is_nan v = false ->
  in_unit (let v := if F32.gtb v F32.one then F32.one else v in
           if F32.ltb v F32.zero then F32.zero else v) = true.
Proof.
  intros Hv. cbv zeta.
  destruct (F32.gtb v F32.one) eqn:Hgt; [reflexivity|].
  destruct (F32.ltb v F32.zero) eqn:Hlt; [reflexivity|].
  unfold in_unit. apply andb_true_intro. split.
  - by apply leb_of_not_ltb.
  - by apply leb_of_not_gtb.
Qed.

Lemma context_ok_new : context_ok new_context.
Proof. unfold context_ok. vm_compute. repeat split; congruence. Qed.

Lemma world_ok_put (w : world) (a : nat) (c : brcontext) :
  world_ok w -> context_ok c -> world_ok (put_context a c w).
Proof.
  intros Hw Hc a' c'. unfold put_context. simpl.
  rewrite lookup_insert. case_decide; [congruence | apply Hw].
Qed.

Lemma world_ok_contexts (w w' : world) :
  contexts w' = contexts w -> world_ok w -> world_ok w'.
Proof. unfold world_ok. intros ->. done. Qed.

Lemma with_context_ok (w w' : world) k :
  world_ok w ->
  (forall a c, context_ok c -> k a c = Some w' -> world_ok w') ->
  with_context w k = Some w' -> world_ok w'.
Proof.
  intros Hw Hk. unfold with_context.
  destruct (_brcontext w) as [a|]; [|by intros [= <-]].
  destruct (contexts w !! a) as [c|] eqn:Hc; simpl; [|done].
  apply Hk. by apply (Hw a).
Qed.

Lemma with_context_unguarded_ok (w w' : world) k :
  world_ok w ->
  (forall a c, context_ok c -> k a c = Some w' -> world_ok w') ->
  with_context_unguarded w k = Some w' -> world_ok w'.
Proof.
  intros Hw Hk. unfold with_context_unguarded.
  destruct (_brcontext w) as [a|]; simpl; [|done].
  destruct (contexts w !! a) as [c|] eqn:Hc; simpl; [|done].
  apply Hk. by apply (Hw a).
Qed.

(** A context whose four constrained fields are those of a good context
    is good. *)
Lemma context_ok_same (c c' : brcontext) :
  context_ok c ->
  texture_unit c' = texture_unit c -> clear_depth c' = clear_depth c ->
  clear_color c' = clear_color c -> point_radius c' = point_radius c ->
  context_ok c'.
Proof. unfold context_ok. intros H -> -> -> ->. exact H. Qed.

(** The draw calls leave every context as it is. *)
Lemma brDrawArray_contexts clip_triangle clip_line (ptype indices : Z)
    (array : list f32) (w w' : world) :
  brDrawArray clip_triangle clip_line ptype indices array w = Some w' ->
  contexts w' = contexts w /\ _brcontext w' = _brcontext w.
Proof.
  unfold brDrawArray. intros H.
  destruct (_brcontext w) as [a|]; simpl in H; [|done].
  destruct (contexts w !! a) as [c|]; simpl in H; [|done].
  destruct (draw_array_loop _ _ _ _ _ _ _ _ _ _ _ _ _); simpl in H; [|done].
  by injection H as <-.
Qed.

Lemma brDrawElements_contexts clip_triangle clip_line (ptype indices : Z)
    (array : list f32) (elements : list Z) (w w' : world) :
  brDrawElements clip_triangle clip_line ptype indices array elements w
  = Some w' ->
  contexts w' = contexts w /\ _brcontext w' = _brcontext w.
Proof.
  unfold brDrawElements. intros H.
  destruct (draw_elements_loop _ _ _ _ _ _ _ _ _ _ _); simpl in H; [|done].
  by injection H as <-.
Qed.

Ltac kept :=
  match goal with
  | Hw : world_ok ?w |- world_ok ?w => exact Hw
  | Hw : world_ok ?w, Hc : context_ok ?c
    |- world_ok (put_context _ _ ?w) =>
      apply world_ok_put;
      [exact Hw | apply (context_ok_same c); [exact Hc | reflexivity ..]]
  end.

Ltac fields Hc :=
  destruct Hc as ([? ?] & ? & ? & ? & ? & ? & ?);
  unfold context_ok; repeat split; try assumption.

Ltac branches :=
  repeat match goal with
         | H : Some _ = Some _ |- _ => injection H as <-
         | H : None = Some _ |- _ => discriminate H
         | H : context [match ?x with _ => _ end] |- _ =>
             destruct x eqn:?; simpl in H
         | H : context [if ?x then _ else _] |- _ =>
             destruct x eqn:?; simpl in H
         end.

(** C9, amended: the predicate (active texture unit in [0,255], clear
    depth and every clear-colour channel in [0,1], point radius >= 0)
    holds of a freshly created context, and every API call whose
    [brClearColor] or [brClearDepth] arguments are not NaN and that
    returns leaves it true of every context in the store. *)
Theorem invariants_preserved_without_nan :
  context_ok new_context
  /\ forall clip_triangle clip_line (call : api_call) (w w' : world),
       world_ok w -> no_nan_argument call ->
       api_step clip_triangle clip_line call w = Some w' -> world_ok w'.
Proof.
  split; [apply context_ok_new|].
  intros clip_triangle clip_line call w w' Hw Hnan Hstep.
  destruct call; simpl in Hstep.
  - (* brCreateContext *)
    injection Hstep as <-. intros a c. simpl.
    rewrite lookup_insert.
    case_decide; [intros [= <-]; apply context_ok_new | apply Hw].
  - (* brBindContext *)
    injection Hstep as <-. destruct context; exact Hw.
  - (* brFreeContext *)
    unfold brFreeContext in Hstep.
    destruct context as [a|]; [|by injection Hstep as <-].
    destruct (contexts w !! a); simpl in Hstep; [|done].
    injection Hstep as <-. intros a' c'. simpl.
    rewrite lookup_delete. case_decide; [done | apply Hw].
  - (* brBindRenderbuffer *)
    revert Hstep. apply with_context_ok; [done|]. intros a c Hc Hk.
    branches; kept.
  - (* brUnbindRenderbuffer *)
    revert Hstep. apply with_context_ok; [done|]. intros a c Hc Hk.
    injection Hk as <-. apply world_ok_put; [done|].
    apply (context_ok_same c); [done|..];
      repeat match goal with |- context [if ?x then _ else _] => destruct x end;
      reflexivity.
  - (* brPolygonMode *)
    revert Hstep. apply with_context_ok; [done|]. intros a c Hc Hk.
    branches; kept.
  - (* brCullWinding *)
    revert Hstep. apply with_context_ok; [done|]. intros a c Hc Hk.
    branches; kept.
  - (* brPointSize *)
    revert Hstep. apply with_context_ok; [done|]. intros a c Hc Hk.
    destruct (F32.geb radius F32.zero) eqn:Hr; injection Hk as <-;
      (apply world_ok_put; [done|]); fields Hc.
  - (* brEnable *)
    revert Hstep. apply with_context_ok; [done|]. intros a c Hc Hk.
    unfold set_toggle in Hk. branches; kept.
  - (* brDisable *)
    revert Hstep. apply with_context_ok; [done|]. intros a c Hc Hk.
    unfold set_toggle in Hk. branches; kept.
  - (* brBindShader *)
    revert Hstep. apply with_context_ok; [done|]. intros a c Hc Hk.
    branches; kept.
  - (* brSwapBuffers *)
    revert Hstep. apply with_context_ok; [done|]. intros a c Hc Hk.
    branches; kept.
  - (* brActiveTexture *)
    revert Hstep. apply with_context_ok; [done|]. intros a c Hc Hk.
    destruct (Z.ltb_spec (u32 unit) 256) as [Hu|Hu]; injection Hk as <-;
      [|done].
    apply world_ok_put; [done|]. fields Hc; simpl.
    + unfold u32. apply Z.mod_pos_bound. lia.
    + lia.
  - (* brTexture *)
    revert Hstep. apply with_context_ok; [done|]. intros a c Hc Hk.
    cbv zeta in Hk.
    repeat match type of Hk with
           | context [array_set ?l ?i ?v] =>
               destruct (array_set l i v); simpl in Hk; [|discriminate Hk]
           end.
    injection Hk as <-. kept.
  - (* brClearColor *)
    revert Hstep. apply with_context_ok; [done|]. intros p c Hc Hk.
    injection Hk as <-. apply world_ok_put; [done|].
    destruct Hnan as (Nr & Ng & Nb & Na).
    fields Hc; by apply clamp_color_in_unit.
  - (* brClearDepth *)
    revert Hstep. apply with_context_ok; [done|]. intros a c Hc Hk.
    injection Hk as <-. apply world_ok_put; [done|].
    fields Hc. by apply clamp_depth_in_unit.
  - (* brVertexPointer *)
    unfold brVertexPointer in Hstep.
    destruct (_ || _); [by injection Hstep as <-|].
    revert Hstep. apply with_context_unguarded_ok; [done|]. intros a c Hc Hk.
    branches; kept.
  - (* brColorPointer *)
    unfold brColorPointer in Hstep.
    destruct (_ && _); [by injection Hstep as <-|].
    revert Hstep. apply with_context_unguarded_ok; [done|]. intros a c Hc Hk.
    branches; kept.
  - (* brNormalPointer *)
    revert Hstep. apply with_context_unguarded_ok; [done|]. intros a c Hc Hk.
    branches; kept.
  - (* brTexCoordPointer *)
    revert Hstep. apply with_context_unguarded_ok; [done|]. intros a c Hc Hk.
    branches; kept.
  - (* brDrawArray *)
    apply brDrawArray_contexts in Hstep as [Hstep _].
    by apply (world_ok_contexts w).
  - (* brDrawElements *)
    apply brDrawElements_contexts in Hstep as [Hstep _].
    by apply (world_ok_contexts w).
Qed.

Lemma bound_world_contexts :
  contexts Example.bound_world = {[ 0%nat := new_context ]}.
Proof. vm_compute. reflexivity. Qed.

Lemma world_ok_bound_world : world_ok Example.bound_world.
Proof.
  intros a c. rewrite bound_world_contexts. intros H.
  apply lookup_singleton_Some in H as [_ <-]. apply context_ok_new.
Qed.

Lemma invariants_preserved_without_nan_witness :
  exists w',
    brClearDepth F32.half Example.bound_world = Some w' /\ world_ok w'.
Proof.
  eexists. split; [vm_compute; reflexivity|].
  apply (proj2 invariants_preserved_without_nan
           Example.no_clip_triangle Example.no_clip_line
           (ClearDepth F32.half) Example.bound_world);
    [exact world_ok_bound_world | reflexivity | vm_compute; reflexivity].
Defined.

(** [brClearDepth] stores a NaN: the two comparisons of its clamp are
    false, and the stored depth is not in [0,1]. *)
Lemma clear_depth_stores_nan :
  world_ok Example.bound_world
  /\ exists w' c,
       brClearDepth F32.nan Example.bound_world = Some w'
       /\ current_context w' = Some c
       /\ clear_depth c = F32.nan
       /\ in_unit (clear_depth c) = false
       /\ ~ world_ok w'.
Proof.
  split; [exact world_ok_bound_world|].
  eexists. eexists.
  split; [vm_compute; reflexivity|].
  split; [vm_compute; reflexivity|].
  split; [reflexivity|]. split; [reflexivity|].
  intros H. specialize (H 0%nat _ eq_refl).
  destruct H as (_ & H & _). discriminate H.
Qed.
(** ** The single red triangle *)

Lemma all_pixels_spec (x y : Z) :
  0 <= x < 64 -> 0 <= y < 64 -> (x, y) ∈ Scene.all_pixels.
Proof.
  intros Hx Hy. unfold Scene.all_pixels.
  apply list_elem_of_bind. exists y. split; [|apply elem_of_seqZ; lia].
  apply list_elem_of_bind. exists x. split; [|apply elem_of_seqZ; lia].
  apply list_elem_of_singleton. reflexivity.
Qed.

(** The two scans of the buffer, pixel by pixel. *)
Lemma check_inside_spec (image : option (list Z)) (x y : Z) :
  Scene.check_inside image = true ->
  0 <= x < 64 -> 0 <= y < 64 -> Scene.pixel_inside x y = true ->
  Scene.pixel image x y = Some Scene.opaque_red.
Proof.
  intros Hc Hx Hy Hin. unfold Scene.check_inside in Hc.
  rewrite forallb_forall in Hc.
  assert (In (x, y) Scene.all_pixels) as Hp
    by (apply list_elem_of_In; by apply all_pixels_spec).
  apply Hc in Hp. simpl in Hp. rewrite Hin in Hp. simpl in Hp.
  by apply bool_decide_eq_true in Hp.
Qed.

Lemma check_outside_spec (image : option (list Z)) (x y : Z) :
  Scene.check_outside image = true ->
  0 <= x < 64 -> 0 <= y < 64 ->
  Scene.pixel_outside x y = true -> Scene.near_vertex x y = false ->
  Scene.pixel image x y = Some 0.
Proof.
  intros Hc Hx Hy Hout Hnear. unfold Scene.check_outside in Hc.
  rewrite forallb_forall in Hc.
  assert (In (x, y) Scene.all_pixels) as Hp
    by (apply list_elem_of_In; by apply all_pixels_spec).
  apply Hc in Hp. simpl in Hp. rewrite Hout, Hnear in Hp. simpl in Hp.
  by apply bool_decide_eq_true in Hp.
Qed.

(** The draw through [brDrawArray] gives the image of the triangle passed
    to [_process_triangle]. *)
Lemma drawn_rendered clip_triangle clip_line :
  Scene.drawn clip_triangle clip_line = Scene.rendered clip_triangle.
Proof. vm_compute. reflexivity. Qed.

(** C1: after the draw, the pixel (14,48), whose square lies left of the
    projected triangle, holds opaque white, not 0: it belongs to the disk
    that [_process_triangle] draws around the projected vertex (16,48).
    The centroid pixel (32,32) is opaque red, every pixel whose square
    lies in the projected triangle is opaque red, and every pixel whose
    square does not meet the triangle and that is more than two pixels
    from the projected vertices holds 0. *)
Theorem vertex_markers_outside_triangle
    (clip_triangle : brvec4 -> brvec4 -> brvec4 -> list brvec4)
    (clip_line : brvec4 -> brvec4 -> brvec4 * brvec4) :
  Scene.pixel_outside 14 48 = true
  /\ Scene.pixel (Scene.drawn clip_triangle clip_line) 14 48
     = Some Scene.opaque_white
  /\ Scene.opaque_white <> 0
  /\ Scene.pixel (Scene.drawn clip_triangle clip_line) 32 32
     = Some Scene.opaque_red
  /\ Scene.check_inside (Scene.drawn clip_triangle clip_line) = true
  /\ Scene.check_outside (Scene.drawn clip_triangle clip_line) = true.
Proof. vm_compute. repeat split. discriminate. Qed.

(** The image pixel by pixel, away from the vertex markers. *)
Lemma drawn_inside_red clip_triangle clip_line (x y : Z) :
  0 <= x < 64 -> 0 <= y < 64 -> Scene.pixel_inside x y = true ->
  Scene.pixel (Scene.drawn clip_triangle clip_line) x y
  = Some Scene.opaque_red.
Proof.
  apply check_inside_spec. vm_compute. reflexivity.
Qed.

Lemma drawn_outside_clear clip_triangle clip_line (x y : Z) :
  0 <= x < 64 -> 0 <= y < 64 ->
  Scene.pixel_outside x y = true -> Scene.near_vertex x y = false ->
  Scene.pixel (Scene.drawn clip_triangle clip_line) x y = Some 0.
Proof.
  apply check_outside_spec. vm_compute. reflexivity.
Qed.
